(** * finance-tracker: the budget accounting model and transaction validation

    A shallow embedding of [budget.py] and [transaction.py].

    - Python [str] values are modelled as [string] restricted to ASCII:
      [str.strip], [str.lower] and the regular-expression class [\d] are
      given their ASCII behaviour.
    - Python [float] values are IEEE 754 binary64 numbers, modelled with the
      Standard Library's [spec_float] at precision 53 and maximal exponent
      1024.  A Python [int] is an unbounded integer.
    - The two dictionaries of a [Budget] are finite maps with string keys.
    - Methods that read or write [self] are written in a state-and-exception
      monad over the [Budget] record; an exception carries the state in which
      it was raised. *)

From Stdlib Require Import ZArith Lia Bool List Ascii String SpecFloat.
From stdpp Require Import gmap strings sorting.

Local Open Scope string_scope.
Local Open Scope Z_scope.

(** ** Python strings (ASCII) *)
Module PyStr.

(** [str.isspace] on one ASCII character: TAB, LF, VT, FF, CR, the four
    separators FS, GS, RS, US and the space. *)
Definition isspace (c : ascii) : bool :=
  let n := nat_of_ascii c in
  ((9 <=? n)%nat && (n <=? 13)%nat) || ((28 <=? n)%nat && (n <=? 32)%nat).

Definition isupper (c : ascii) : bool :=
  let n := nat_of_ascii c in (65 <=? n)%nat && (n <=? 90)%nat.

Definition isdigit (c : ascii) : bool :=
  let n := nat_of_ascii c in (48 <=? n)%nat && (n <=? 57)%nat.

Definition lower_char (c : ascii) : ascii :=
  if isupper c then ascii_of_nat (nat_of_ascii c + 32) else c.

(** [s.lower()] *)
Fixpoint lower (s : string) : string :=
  match s with
  | EmptyString => EmptyString
  | String c s' => String (lower_char c) (lower s')
  end.

Fixpoint lstrip (s : string) : string :=
  match s with
  | EmptyString => EmptyString
  | String c s' => if isspace c then lstrip s' else s
  end.

Fixpoint rstrip (s : string) : string :=
  match s with
  | EmptyString => EmptyString
  | String c s' =>
      match rstrip s' with
      | EmptyString => if isspace c then EmptyString else String c EmptyString
      | r => String c r
      end
  end.

(** [s.strip()] *)
Definition strip (s : string) : string := rstrip (lstrip s).

(** The value of a decimal digit character. *)
Definition digit_value (c : ascii) : Z := Z.of_nat (nat_of_ascii c) - 48.

(** [int(s)] on a string of decimal digits, most significant first. *)
Fixpoint int_of_digits_from (acc : Z) (s : string) : Z :=
  match s with
  | EmptyString => acc
  | String c s' => int_of_digits_from (10 * acc + digit_value c) s'
  end.

Definition int_of_digits (s : string) : Z := int_of_digits_from 0 s.

End PyStr.

(** ** Python floats (binary64) *)
Module PyFloat.

Definition prec : Z := 53.
Definition emax : Z := 1024.

Abbreviation float := spec_float.

Definition pzero : float := S754_zero false.
Definition of_Z (z : Z) : float := binary_normalize prec emax z 0 false.

Definition add : float -> float -> float := SFadd prec emax.
Definition sub : float -> float -> float := SFsub prec emax.
Definition mul : float -> float -> float := SFmul prec emax.
Definition div : float -> float -> float := SFdiv prec emax.
Definition ltb : float -> float -> bool := SFltb.
Definition leb : float -> float -> bool := SFleb.

(** The correctly rounded quotient of two integers, [n / d] with [d > 0]. *)
Definition of_ratio (neg : bool) (n d : positive) : float :=
  SFdiv prec emax (S754_finite neg n 0) (S754_finite false d 0).

(** The correctly rounded value of [(-1)^neg * m * 10^e]. *)
Definition of_decimal (neg : bool) (m : Z) (e : Z) : float :=
  match m with
  | Zpos p =>
      if 0 <=? e
      then binary_normalize prec emax
             (if neg then - (m * 10 ^ e) else m * 10 ^ e) 0 false
      else of_ratio neg p (Z.to_pos (10 ^ (- e)))
  | _ => S754_zero neg
  end.

(** Round-half-even of the rational [n / d] to an integer, [d > 0]. *)
Definition div_half_even (n d : Z) : Z :=
  let q := n / d in
  let r := n mod d in
  match 2 * r ?= d with
  | Lt => q
  | Gt => q + 1
  | Eq => if Z.even q then q else q + 1
  end.

(** [round(x, 2)] on a float: infinities and NaN round to themselves; a
    finite [x] goes to the decimal with two fractional digits nearest to its
    exact value (ties to even), which is then read back as a float. *)
Definition round2 (x : float) : float :=
  match x with
  | S754_finite s m e =>
      if 0 <=? e then x
      else
        match div_half_even (Zpos m * 100) (2 ^ (- e)) with
        | Zpos q => of_ratio s q 100
        | _ => S754_zero s
        end
  | _ => x
  end.

#[global] Arguments add : simpl never.
#[global] Arguments sub : simpl never.
#[global] Arguments mul : simpl never.
#[global] Arguments div : simpl never.
#[global] Arguments ltb : simpl never.
#[global] Arguments leb : simpl never.
#[global] Arguments of_Z : simpl never.
#[global] Arguments round2 : simpl never.

End PyFloat.

(** ** Python objects, exceptions and the builtin [float()] *)
Module Py.
Import PyFloat.

(** The values a caller passes as an amount or a limit.  [PyNone] stands for
    any object that is neither a string nor a number. *)
Inductive pyobj : Type :=
| PyFloat (f : float)
| PyInt (z : Z)
| PyStr (s : string)
| PyNone.

(** Exceptions carry the constant part of their message. *)
Inductive exn : Type :=
| ValueError (msg : string)
| TypeError (msg : string)
| OverflowError (msg : string)
| KeyError (msg : string).

Inductive result (A : Type) : Type :=
| Ok (a : A)
| Err (e : exn).
Arguments Ok {A} a.
Arguments Err {A} e.

Definition bind {A B} (r : result A) (k : A -> result B) : result B :=
  match r with
  | Ok a => k a
  | Err e => Err e
  end.

(** Whitespace that [float()] skips around an ASCII string. *)
Definition float_space (c : ascii) : bool :=
  let n := nat_of_ascii c in
  ((9 <=? n)%nat && (n <=? 13)%nat) || (n =? 32)%nat.

Fixpoint float_lstrip (s : string) : string :=
  match s with
  | EmptyString => EmptyString
  | String c s' => if float_space c then float_lstrip s' else s
  end.

Fixpoint float_rstrip (s : string) : string :=
  match s with
  | EmptyString => EmptyString
  | String c s' =>
      match float_rstrip s' with
      | EmptyString => if float_space c then EmptyString else String c EmptyString
      | r => String c r
      end
  end.

(** An underscore is allowed only between two digits. *)
Fixpoint underscores_ok (prev : ascii) (s : string) : bool :=
  match s with
  | EmptyString => negb (Ascii.eqb prev "_")
  | String c s' =>
      (if Ascii.eqb c "_" then PyStr.isdigit prev
       else negb (Ascii.eqb prev "_") || PyStr.isdigit c)
      && underscores_ok c s'
  end.

Fixpoint remove_underscores (s : string) : string :=
  match s with
  | EmptyString => EmptyString
  | String c s' =>
      if Ascii.eqb c "_" then remove_underscores s'
      else String c (remove_underscores s')
  end.

(** Reads a maximal run of digits: the accumulated value, the number of
    digits read and the rest of the string. *)
Fixpoint span_digits (acc : Z) (n : Z) (s : string) : Z * Z * string :=
  match s with
  | String c s' =>
      if PyStr.isdigit c
      then span_digits (10 * acc + PyStr.digit_value c) (n + 1) s'
      else (acc, n, s)
  | EmptyString => (acc, n, s)
  end.

Definition read_sign (s : string) : bool * string :=
  match s with
  | String "-" s' => (true, s')
  | String "+" s' => (false, s')
  | _ => (false, s)
  end.

(** The optional exponent part: it is consumed only when at least one digit
    follows the [e] and the optional sign. *)
Definition read_exponent (s : string) : Z * string :=
  match s with
  | String c s' =>
      if Ascii.eqb c "e" || Ascii.eqb c "E" then
        let '(neg, s1) := read_sign s' in
        let '(v, n, s2) := span_digits 0 0 s1 in
        if n =? 0 then (0, s) else (if neg then - v else v, s2)
      else (0, s)
  | EmptyString => (0, s)
  end.

(** A decimal number without sign, read up to the end of the string. *)
Definition read_number (neg : bool) (s : string) : option float :=
  let '(ip, ni, s1) := span_digits 0 0 s in
  let '(m, nf, s2) :=
    match s1 with
    | String "." s1' => span_digits ip 0 s1'
    | _ => (ip, 0, s1)
    end in
  if ni + nf =? 0 then None
  else
    let '(e, s3) := read_exponent s2 in
    match s3 with
    | EmptyString => Some (of_decimal neg m (e - nf))
    | _ => None
    end.

Definition read_inf_or_nan (neg : bool) (s : string) : option float :=
  let l := PyStr.lower s in
  if String.eqb l "inf" || String.eqb l "infinity" then Some (S754_infinity neg)
  else if String.eqb l "nan" then Some S754_nan
  else None.

(** [float(s)] for a string [s]. *)
Definition parse_float (s : string) : option float :=
  if underscores_ok "000" s then
    let t := float_rstrip (float_lstrip (remove_underscores s)) in
    let '(neg, u) := read_sign t in
    match read_number neg u with
    | Some f => Some f
    | None => read_inf_or_nan neg u
    end
  else None.

(** The builtin [float(x)]. *)
Definition py_float (x : pyobj) : result float :=
  match x with
  | PyFloat f => Ok f
  | PyInt z =>
      match of_Z z with
      | S754_infinity _ => Err (OverflowError "int too large to convert to float")
      | f => Ok f
      end
  | PyStr s =>
      match parse_float s with
      | Some f => Ok f
      | None => Err (ValueError "could not convert string to float")
      end
  | PyNone => Err (TypeError "float() argument must be a string or a real number")
  end.

End Py.

(** ** The regular expressions of [validate_date] and of [strptime] *)
Module Regex.

Inductive regex : Type :=
| Chr (c : ascii)            (* a literal character *)
| Digit                      (* \d *)
| Range (lo hi : ascii)      (* [lo-hi] *)
| OneOf (cs : string)        (* [abc] *)
| Seq (r1 r2 : regex)
| Alt (r1 r2 : regex)
| Eol.                       (* $ *)

Fixpoint mem (c : ascii) (cs : string) : bool :=
  match cs with
  | EmptyString => false
  | String c' cs' => Ascii.eqb c c' || mem c cs'
  end.

Definition in_range (lo hi c : ascii) : bool :=
  let n := nat_of_ascii c in
  (nat_of_ascii lo <=? n)%nat && (n <=? nat_of_ascii hi)%nat.

(** One character of the subject against a character test. *)
Definition step {A} (p : ascii -> bool) (s : string)
    (k : string -> string -> option A) : option A :=
  match s with
  | String c s' => if p c then k (String c EmptyString) s' else None
  | EmptyString => None
  end.

(** Backtracking matcher: [k] receives the matched text and the rest of the
    subject; the alternatives of [Alt] are tried from left to right.  [$]
    matches at the end of the subject and before a final newline. *)
Fixpoint run {A} (r : regex) (s : string)
    (k : string -> string -> option A) : option A :=
  match r with
  | Chr c => step (Ascii.eqb c) s k
  | Digit => step PyStr.isdigit s k
  | Range lo hi => step (in_range lo hi) s k
  | OneOf cs => step (fun c => mem c cs) s k
  | Seq r1 r2 =>
      run r1 s (fun g1 s1 => run r2 s1 (fun g2 s2 => k (g1 ++ g2) s2))
  | Alt r1 r2 =>
      match run r1 s k with
      | Some a => Some a
      | None => run r2 s k
      end
  | Eol =>
      match s with
      | EmptyString => k EmptyString s
      | String c EmptyString =>
          if Ascii.eqb c "010" then k EmptyString s else None
      | _ => None
      end
  end.

(** [re.match(r, s)] as a truth value. *)
Definition re_match (r : regex) (s : string) : bool :=
  match run r s (fun _ _ => Some tt) with
  | Some _ => true
  | None => false
  end.

End Regex.

(** ** transaction.py *)
Module Transaction.
Import PyFloat Py Regex.

Declare Scope regex_scope.
Delimit Scope regex_scope with re.
Infix "·" := Seq (at level 40, left associativity) : regex_scope.
Infix "∣" := Alt (at level 50, left associativity) : regex_scope.

(** [^\d{4}-(0[1-9]|1[0-2])-(0[1-9]|[12]\d|3[01])$] *)
Definition pattern : regex :=
  (Digit · Digit · Digit · Digit · Chr "-"
   · (Chr "0" · Range "1" "9" ∣ Chr "1" · Range "0" "2") · Chr "-"
   · (Chr "0" · Range "1" "9" ∣ OneOf "12" · Digit ∣ Chr "3" · OneOf "01")
   · Eol)%re.

(** The groups that [strptime] compiles [%Y], [%m] and [%d] to:
    [\d\d\d\d], [1[0-2]|0[1-9]|[1-9]] and
    [3[0-1]|[1-2]\d|0[1-9]|[1-9]| [1-9]]. *)
Definition group_Y : regex := (Digit · Digit · Digit · Digit)%re.
Definition group_m : regex :=
  (Chr "1" · Range "0" "2" ∣ Chr "0" · Range "1" "9" ∣ Range "1" "9")%re.
Definition group_d : regex :=
  (Chr "3" · Range "0" "1" ∣ Range "1" "2" · Digit ∣ Chr "0" · Range "1" "9"
   ∣ Range "1" "9" ∣ Chr " " · Range "1" "9")%re.

(** [int(g)] on a matched group. *)
Definition int (g : string) : Z := PyStr.int_of_digits (PyStr.strip g).

Definition is_leap (year : Z) : bool :=
  (year mod 4 =? 0) && (negb (year mod 100 =? 0) || (year mod 400 =? 0)).

Definition days_in_month (year month : Z) : Z :=
  if (month =? 2) && is_leap year then 29
  else nth (Z.to_nat month) [0; 31; 28; 31; 30; 31; 30; 31; 31; 30; 31; 30; 31] 0.

(** The range checks of [datetime.date(year, month, day)]. *)
Definition check_date_fields (year month day : Z) : result (Z * Z * Z) :=
  if negb ((1 <=? year) && (year <=? 9999))
  then Err (ValueError "year is out of range")
  else if negb ((1 <=? month) && (month <=? 12))
  then Err (ValueError "month must be in 1..12")
  else if negb ((1 <=? day) && (day <=? days_in_month year month))
  then Err (ValueError "day is out of range for month")
  else Ok (year, month, day).

(** [datetime.strptime(s, '%Y-%m-%d')], as the date it denotes. *)
Definition strptime (s : string) : result (Z * Z * Z) :=
  match
    run group_Y s (fun gY s1 =>
    run (Chr "-") s1 (fun _ s2 =>
    run group_m s2 (fun gm s3 =>
    run (Chr "-") s3 (fun _ s4 =>
    run group_d s4 (fun gd rest => Some (gY, gm, gd, rest))))))
  with
  | None => Err (ValueError "time data does not match format")
  | Some (gY, gm, gd, rest) =>
      match rest with
      | EmptyString => check_date_fields (int gY) (int gm) (int gd)
      | _ => Err (ValueError "unconverted data remains")
      end
  end.

Inductive class_name : Type := Transaction_ | Income_ | Expense_.

Record Transaction : Type := {
  date : string;
  amount : float;
  category : string;
  description : string;
  transaction_id : option Z;
  class : class_name
}.

Definition validate_date (date : string) : result string :=
  if negb (re_match pattern date)
  then Err (ValueError "Invalid date format")
  else
    match strptime date with
    | Err (ValueError _) => Err (ValueError "Invalid date")
    | Err e => Err e
    | Ok _ => Ok date
    end.

Definition validate_amount (amount : pyobj) : result float :=
  match
    bind (py_float amount) (fun amount =>
    if leb amount (of_Z 0)
    then Err (ValueError "Has to be a positive amount.")
    else Ok (round2 amount))
  with
  | Err (ValueError _) | Err (TypeError _) => Err (ValueError "Invalid amount")
  | r => r
  end.

(** [Transaction.__init__], for an object of class [cls]. *)
Definition init (cls : class_name) (date : string) (amount : pyobj)
    (category description : string) : result Transaction :=
  bind (validate_date date) (fun date =>
  bind (validate_amount amount) (fun amount =>
  Ok {| date := date;
        amount := amount;
        category := PyStr.lower (PyStr.strip category);
        description := PyStr.strip description;
        transaction_id := None;
        class := cls |})).

Definition Income := init Income_.
Definition Expense := init Expense_.

End Transaction.

(** ** budget.py *)
Module Budget.
Import PyFloat Py.

(** The attributes of a [Budget] object. *)
Record Budget : Type := {
  limits : gmap string float;
  spent : gmap string float
}.

(** A method call ends by returning a value or by raising an exception; in
    both cases the object is left in some state. *)
Inductive outcome (A : Type) : Type :=
| Return (a : A) (self : Budget)
| Raise (e : exn) (self : Budget).
Arguments Return {A} a self.
Arguments Raise {A} e self.

Definition M (A : Type) : Type := Budget -> outcome A.

Definition ret {A} (a : A) : M A := fun self => Return a self.

Definition mbind {A B} (m : M A) (k : A -> M B) : M B :=
  fun self =>
    match m self with
    | Return a self' => k a self'
    | Raise e self' => Raise e self'
    end.

Definition raise {A} (e : exn) : M A := fun self => Raise e self.

Definition lift {A} (r : result A) : M A :=
  match r with
  | Ok a => ret a
  | Err e => raise e
  end.

(** [try: body except ...: handler]: the handler runs in the state the body
    left behind; an exception it does not select propagates. *)
Definition try_except {A} (body : M A) (handler : exn -> option (M A)) : M A :=
  fun self =>
    match body self with
    | Return a self' => Return a self'
    | Raise e self' =>
        match handler e with
        | Some h => h self'
        | None => Raise e self'
        end
    end.

Declare Scope py_scope.
Delimit Scope py_scope with py.
Notation "x <- m ;; k" := (mbind m (fun x => k))
  (at level 100, m at next level, right associativity) : py_scope.
Notation "m ;;; k" := (mbind m (fun _ => k))
  (at level 100, right associativity) : py_scope.
Local Open Scope py_scope.

(** Reads and writes of [self.limits] and [self.spent]. *)
Definition limits_contains (k : string) : M bool :=
  fun self => Return (bool_decide (is_Some (limits self !! k))) self.

Definition spent_contains (k : string) : M bool :=
  fun self => Return (bool_decide (is_Some (spent self !! k))) self.

Definition limits_getitem (k : string) : M float :=
  fun self =>
    match limits self !! k with
    | Some v => Return v self
    | None => Raise (KeyError k) self
    end.

Definition spent_getitem (k : string) : M float :=
  fun self =>
    match spent self !! k with
    | Some v => Return v self
    | None => Raise (KeyError k) self
    end.

(** [self.spent.get(k, d)] *)
Definition spent_get (k : string) (d : float) : M float :=
  fun self => Return (default d (spent self !! k)) self.

Definition limits_setitem (k : string) (v : float) : M unit :=
  fun self => Return tt {| limits := <[k := v]> (limits self); spent := spent self |}.

Definition spent_setitem (k : string) (v : float) : M unit :=
  fun self => Return tt {| limits := limits self; spent := <[k := v]> (spent self) |}.

Definition limits_keys : M (list string) :=
  fun self => Return (map fst (map_to_list (limits self))) self.

(** [print(...)]: standard output is not part of the model. *)
Definition print : M unit := ret tt.

(** [Budget()] *)
Definition init : Budget := {| limits := ∅; spent := ∅ |}.

Definition set_limit (category : string) (limit : pyobj) : M unit :=
  let category := PyStr.lower (PyStr.strip category) in
  try_except
    (limit <- lift (py_float limit);;
     if leb limit (of_Z 0)
     then raise (ValueError "It must be a postive budget limit.")
     else
       limits_setitem category (round2 limit);;;
       (present <- spent_contains category;;
        if negb present then spent_setitem category pzero else ret tt);;;
       print)
    (fun e =>
       match e with
       | ValueError _ | TypeError _ => Some (raise (ValueError "Invalid budget limit"))
       | _ => None
       end).

Definition add_expense (category : string) (amount : pyobj) : M unit :=
  let category := PyStr.lower (PyStr.strip category) in
  amount <- lift (py_float amount);;
  (present <- spent_contains category;;
   if negb present then spent_setitem category pzero else ret tt);;;
  current <- spent_getitem category;;
  spent_setitem category (add current amount).

Definition get_remaining (category : string) : M (option float) :=
  let category := PyStr.lower (PyStr.strip category) in
  present <- limits_contains category;;
  if negb present then ret None
  else
    spent <- spent_get category pzero;;
    limit <- limits_getitem category;;
    ret (Some (sub limit spent)).

Definition is_over_budget (category : string) : M bool :=
  remaining <- get_remaining category;;
  match remaining with
  | None => ret false
  | Some remaining => ret (ltb remaining (of_Z 0))
  end.

(** The dictionary that [get_status] returns. *)
Record Status : Type := {
  status_category : string;
  status_limit : float;
  status_spent : float;
  status_remaining : float;
  status_percentage : float;
  status_over_budget : bool
}.

Definition get_status (category : string) : M (option Status) :=
  let category := PyStr.lower (PyStr.strip category) in
  present <- limits_contains category;;
  if negb present then ret None
  else
    limit <- limits_getitem category;;
    spent <- spent_get category pzero;;
    let remaining := sub limit spent in
    let percentage :=
      if ltb (of_Z 0) limit then mul (div spent limit) (of_Z 100)
      else of_Z 0 in
    ret (Some {| status_category := category;
                 status_limit := limit;
                 status_spent := spent;
                 status_remaining := remaining;
                 status_percentage := percentage;
                 status_over_budget := ltb remaining (of_Z 0) |}).

Definition get_all_categories : M (gset string) :=
  fun self => Return (dom (limits self) ∪ dom (spent self)) self.

(** The body of the [for] loop of [get_budget_report]. *)
Fixpoint report_loop (categories : list string) (report : list Status)
    : M (list Status) :=
  match categories with
  | [] => ret report
  | category :: rest =>
      status <- get_status category;;
      match status with
      | Some st => report_loop rest (report ++ [st])
      | None => report_loop rest report
      end
  end.

Definition get_budget_report : M (list Status) :=
  keys <- limits_keys;;
  report_loop (merge_sort String.le keys) [].

(** The dictionary that [to_dict] returns and [from_dict] reads; a key may
    be missing from what [from_dict] is given. *)
Record Data : Type := {
  data_limits : option (gmap string float);
  data_spent : option (gmap string float)
}.

Definition to_dict : M Data :=
  fun self =>
    Return {| data_limits := Some (limits self); data_spent := Some (spent self) |} self.

Definition from_dict (data : Data) : M unit :=
  fun _ =>
    Return tt {| limits := default ∅ (data_limits data);
                 spent := default ∅ (data_spent data) |}.

(** What [print_summary] writes: fixed text, one row for each category and
    the line of totals.  The numbers are kept as floats; their formatting with
    two decimals is not part of the model. *)
Inductive line : Type :=
| Text (s : string)
| Row (category : string) (limit spent remaining : float) (indicator : string)
| Total (total_limit total_spent difference : float).

Fixpoint replicate_char (n : nat) (c : ascii) : string :=
  match n with
  | O => EmptyString
  | S n' => String c (replicate_char n' c)
  end.

Definition limits_is_empty : M bool :=
  fun self => Return (bool_decide (limits self = ∅)) self.

(** The body of the [for] loop of [print_summary]: [status['limit']] raises
    when [get_status] returned [None]. *)
Fixpoint summary_loop (categories : list string) (total_limit total_spent : float)
    (out : list line) : M (float * float * list line) :=
  match categories with
  | [] => ret (total_limit, total_spent, out)
  | category :: rest =>
      status <- get_status category;;
      match status with
      | None => raise (TypeError "'NoneType' object is not subscriptable")
      | Some status =>
          let limit := status_limit status in
          let spent := status_spent status in
          let remaining := status_remaining status in
          let total_limit := add total_limit limit in
          let total_spent := add total_spent spent in
          let indicator :=
            if status_over_budget status then "OVER BUDGET"
            else if ltb (of_Z 80) (status_percentage status) then "HIGH PERCENTAGE"
            else "Status ok!" in
          summary_loop rest total_limit total_spent
            (out ++ [Row category limit spent remaining indicator])%list
      end
  end.

(** [print_summary], returning the lines it prints. *)
Definition print_summary : M (list line) :=
  let out :=
    [Text (String "010" (replicate_char 60 "="));
     Text (replicate_char 23 " " ++ "BUDGET SUMMARY" ++ replicate_char 23 " ");
     Text (replicate_char 60 "=")] in
  empty <- limits_is_empty;;
  if empty then ret (out ++ [Text "There isn't any budgets set yet."])%list
  else
    keys <- limits_keys;;
    totals <- summary_loop (merge_sort String.le keys) (of_Z 0) (of_Z 0)
                (out ++ [Text "Category             Limit      Spent  Remaining     Status";
                         Text (replicate_char 60 "-")])%list;;
    let '(total_limit, total_spent, out) := totals in
    ret (out ++ [Text (replicate_char 60 "-");
                 Total total_limit total_spent (sub total_limit total_spent);
                 Text (replicate_char 60 "=" ++ String "010" EmptyString)])%list.

(** The budgets that successful [set_limit] and [add_expense] calls build
    from the empty one, with the expense amounts taken among [allowed]. *)
Inductive reachable_with (allowed : pyobj -> Prop) : Budget -> Prop :=
| reach_init : reachable_with allowed init
| reach_set_limit self category limit self' :
    reachable_with allowed self ->
    set_limit category limit self = Return tt self' ->
    reachable_with allowed self'
| reach_add_expense self category amount self' :
    reachable_with allowed self ->
    allowed amount ->
    add_expense category amount self = Return tt self' ->
    reachable_with allowed self'.

Definition reachable : Budget -> Prop := reachable_with (fun _ => True).

End Budget.

(** ** file_manager.py *)
Module FileManager.
Import PyFloat Py.

(** What [json.load] returns.  The members of an object are listed in the
    order of the text; a repeated key takes its last value. *)
#[local] Unset Elimination Schemes.
Inductive json : Type :=
| JNull
| JBool (b : bool)
| JInt (z : Z)
| JFloat (f : float)
| JString (s : string)
| JArray (items : list json)
| JObject (members : list (string * json)).
#[local] Set Elimination Schemes.

(** A file of the working directory: absent, present but not readable as
    JSON, or holding a JSON document.  Writing a file always succeeds. *)
Inductive file (A : Type) : Type :=
| Missing
| Unreadable
| Holds (data : A).
Arguments Missing {A}.
Arguments Unreadable {A}.
Arguments Holds {A} data.

(** The exceptions of this module: those of the core, and the
    [AttributeError] of a method call on an object that lacks the method. *)
Inductive failure : Type :=
| Raised (e : exn)
| AttributeError (msg : string).

Definition and_then {A B} (r : A + failure) (k : A -> B + failure) : B + failure :=
  match r with
  | inl a => k a
  | inr e => inr e
  end.

(** The last value that [members] gives to [key]. *)
Fixpoint member (key : string) (members : list (string * json)) : option json :=
  match members with
  | [] => None
  | (k, v) :: rest =>
      match member key rest with
      | Some v' => Some v'
      | None => if String.eqb k key then Some v else None
      end
  end.

(** The keys of an object, each once, in the order of first appearance. *)
Fixpoint keys (seen : list string) (members : list (string * json)) : list string :=
  match members with
  | [] => []
  | (k, _) :: rest =>
      if bool_decide (k ∈ seen) then keys seen rest
      else k :: keys (k :: seen) rest
  end.

(** [item[key]] for a string [key]. *)
Definition getitem (item : json) (key : string) : json + failure :=
  match item with
  | JObject members =>
      match member key members with
      | Some v => inl v
      | None => inr (Raised (KeyError key))
      end
  | JString _ => inr (Raised (TypeError "string indices must be integers"))
  | JArray _ => inr (Raised (TypeError "list indices must be integers or slices"))
  | _ => inr (Raised (TypeError "object is not subscriptable"))
  end.

Fixpoint characters (s : string) : list json :=
  match s with
  | EmptyString => []
  | String c s' => JString (String c EmptyString) :: characters s'
  end.

(** What [for item in data] goes through. *)
Definition iterate (data : json) : list json + failure :=
  match data with
  | JArray items => inl items
  | JObject members => inl (map JString (keys [] members))
  | JString s => inl (characters s)
  | _ => inr (Raised (TypeError "object is not iterable"))
  end.

(** A JSON value as an argument of [float()]; [True] and [False] are the
    integers 1 and 0. *)
Definition as_pyobj (v : json) : pyobj :=
  match v with
  | JFloat f => PyFloat f
  | JInt z => PyInt z
  | JBool b => PyInt (if b then 1 else 0)
  | JString s => PyStr s
  | _ => PyNone
  end.

(** [Income(...)] and [Expense(...)] on loaded values: [re.match] raises a
    [TypeError] on a date that is not a string, and [strip] is missing from a
    category or description that is not a string. *)
Definition construct (cls : Transaction.class_name)
    (date amount category description : json) : Transaction.Transaction + failure :=
  match date with
  | JString date =>
      match Transaction.validate_date date with
      | Err e => inr (Raised e)
      | Ok date =>
          match Transaction.validate_amount (as_pyobj amount) with
          | Err e => inr (Raised e)
          | Ok amount =>
              match category with
              | JString category =>
                  match description with
                  | JString description =>
                      inl {| Transaction.date := date;
                             Transaction.amount := amount;
                             Transaction.category := PyStr.lower (PyStr.strip category);
                             Transaction.description := PyStr.strip description;
                             Transaction.transaction_id := None;
                             Transaction.class := cls |}
                  | _ => inr (AttributeError "object has no attribute 'strip'")
                  end
              | _ => inr (AttributeError "object has no attribute 'strip'")
              end
          end
      end
  | _ => inr (Raised (TypeError "expected string or bytes-like object"))
  end.

(** One round of the loop of [load_transactions]. *)
Definition load_item (item : json) : Transaction.Transaction + failure :=
  and_then (getitem item "type") (fun type =>
  let cls :=
    match type with
    | JString s => if String.eqb s "Income" then Transaction.Income_ else Transaction.Expense_
    | _ => Transaction.Expense_
    end in
  and_then (getitem item "date") (fun date =>
  and_then (getitem item "amount") (fun amount =>
  and_then (getitem item "category") (fun category =>
  and_then (getitem item "description") (fun description =>
  construct cls date amount category description))))).

Fixpoint load_loop (items : list json) (transactions : list Transaction.Transaction)
    : list Transaction.Transaction + failure :=
  match items with
  | [] => inl transactions
  | item :: rest =>
      and_then (load_item item) (fun t => load_loop rest (transactions ++ [t])%list)
  end.

(** [load_transactions]: every exception ends in a handler that returns the
    empty list. *)
Definition load_transactions (transactions_file : file json)
    : list Transaction.Transaction :=
  match transactions_file with
  | Missing => []
  | Unreadable => []
  | Holds data =>
      match and_then (iterate data) (fun items => load_loop items []) with
      | inl transactions => transactions
      | inr _ => []
      end
  end.

Definition type_name (t : Transaction.Transaction) : string :=
  match Transaction.class t with
  | Transaction.Income_ => "Income"
  | _ => "Expense"
  end.

(** The dictionary that [save_transactions] writes for one transaction. *)
Definition trans_dict (t : Transaction.Transaction) : json :=
  JObject [("date", JString (Transaction.date t));
           ("amount", JFloat (Transaction.amount t));
           ("category", JString (Transaction.category t));
           ("description", JString (Transaction.description t));
           ("type", JString (type_name t))].

(** [save_transactions]: the file it leaves and the value it returns. *)
Definition save_transactions (transactions : list Transaction.Transaction)
    : file json * bool :=
  (Holds (JArray (map trans_dict transactions)), true).

(** The budget file is modelled by the snapshot it holds: an object whose
    members [limits] and [spent], when present, map categories to floats. *)
Definition save_budget (budget : Budget.Budget) : file Budget.Data * bool :=
  match Budget.to_dict budget with
  | Budget.Return data _ => (Holds data, true)
  | Budget.Raise _ _ => (Missing, false)
  end.

Definition load_budget (budget_file : file Budget.Data) : Budget.Budget :=
  match budget_file with
  | Missing => Budget.init
  | Unreadable => Budget.init
  | Holds data =>
      match Budget.from_dict data Budget.init with
      | Budget.Return _ budget => budget
      | Budget.Raise _ _ => Budget.init
      end
  end.

End FileManager.

(** ** finance_tracker.py *)
Module FinanceTracker.
Import PyFloat Py FileManager.

(** The application object, with the two files that its file manager reads
    and writes. *)
Record FinanceTracker : Type := {
  transactions : list Transaction.Transaction;
  budget : Budget.Budget;
  transactions_file : file json;
  budget_file : file Budget.Data
}.

Definition is_expense (t : Transaction.Transaction) : bool :=
  match Transaction.class t with
  | Transaction.Expense_ => true
  | _ => false
  end.

(** The two loops of [load_data] over the loaded transactions: the first
    gives every expense category a spent total, the second adds the amounts. *)
Definition seed_spent (budget : Budget.Budget) (t : Transaction.Transaction)
    : Budget.Budget :=
  if is_expense t then
    match Budget.spent budget !! Transaction.category t with
    | Some _ => budget
    | None =>
        {| Budget.limits := Budget.limits budget;
           Budget.spent := <[Transaction.category t := pzero]> (Budget.spent budget) |}
    end
  else budget.

Definition add_spent (budget : Budget.Budget) (t : Transaction.Transaction)
    : Budget.Budget :=
  if is_expense t then
    {| Budget.limits := Budget.limits budget;
       Budget.spent :=
         <[Transaction.category t :=
             add (default pzero (Budget.spent budget !! Transaction.category t))
                 (Transaction.amount t)]>
           (Budget.spent budget) |}
  else budget.

Definition load_data (self : FinanceTracker) : FinanceTracker :=
  let transactions := load_transactions (transactions_file self) in
  let budget := load_budget (budget_file self) in
  let budget :=
    match transactions with
    | [] => budget
    | _ => fold_left add_spent transactions (fold_left seed_spent transactions budget)
    end in
  {| transactions := transactions;
     budget := budget;
     transactions_file := transactions_file self;
     budget_file := budget_file self |}.

Definition save_data (self : FinanceTracker) : FinanceTracker :=
  {| transactions := transactions self;
     budget := budget self;
     transactions_file := fst (save_transactions (transactions self));
     budget_file := fst (save_budget (budget self)) |}.



(** The budget part of [add_transaction] for an expense: the amount is added,
    then the two warnings are decided; the second one reads
    [self.budget.limits[category]]. *)
Definition record_expense (category : string) (amount : float) : Budget.M unit :=
  Budget.mbind (Budget.add_expense category (PyFloat amount)) (fun _ =>
  Budget.mbind (Budget.get_remaining category) (fun remaining =>
  match remaining with
  | None => Budget.ret tt
  | Some remaining =>
      if ltb remaining (of_Z 0) then Budget.print
      else
        Budget.mbind (Budget.limits_getitem category) (fun limit =>
        if ltb remaining (mul limit (of_decimal false 2 (-1))) then Budget.print
        else Budget.ret tt)
  end)).

(** [add_transaction], on the six lines that it reads; [today] is the date
    that [datetime.now()] gives.  Both handlers only print. *)
Definition add_transaction (choice date amount category description today : string)
    (self : FinanceTracker) : FinanceTracker :=
  let choice := PyStr.strip choice in
  if negb (String.eqb choice "1" || String.eqb choice "2") then self
  else
    let date := PyStr.strip date in
    let date := if String.eqb date "" then today else date in
    let amount := PyStr.strip amount in
    let category := PyStr.strip category in
    let description := PyStr.strip description in
    if String.eqb choice "1" then
      match Transaction.Income date (PyStr amount) category description with
      | Err _ => self
      | Ok transaction =>
          save_data {| transactions := (transactions self ++ [transaction])%list;
                       budget := budget self;
                       transactions_file := transactions_file self;
                       budget_file := budget_file self |}
      end
    else
      match Transaction.Expense date (PyStr amount) category description with
      | Err _ => self
      | Ok transaction =>
          match record_expense category (Transaction.amount transaction) (budget self) with
          | Budget.Raise _ budget' =>
              {| transactions := transactions self;
                 budget := budget';
                 transactions_file := transactions_file self;
                 budget_file := budget_file self |}
          | Budget.Return _ budget' =>
              save_data {| transactions := (transactions self ++ [transaction])%list;
                           budget := budget';
                           transactions_file := transactions_file self;
                           budget_file := budget_file self |}
          end
      end.

(** [set_budget], on the two lines that it reads.  Only a [ValueError] is
    handled; any other exception leaves the method. *)
Definition set_budget (category limit : string) (self : FinanceTracker)
    : result FinanceTracker :=
  let category := PyStr.strip category in
  let limit := PyStr.strip limit in
  match Budget.set_limit category (PyStr limit) (budget self) with
  | Budget.Return _ budget' =>
      Ok (save_data {| transactions := transactions self;
                       budget := budget';
                       transactions_file := transactions_file self;
                       budget_file := budget_file self |})
  | Budget.Raise (ValueError _) budget' =>
      Ok {| transactions := transactions self;
            budget := budget';
            transactions_file := transactions_file self;
            budget_file := budget_file self |}
  | Budget.Raise e _ => Err e
  end.

End FinanceTracker.

(** * The vocabulary of the specification *)

Import PyFloat Py.

(** Category normalisation: trimmed, then lower-cased. *)
Definition normalize (c : string) : string := PyStr.lower (PyStr.strip c).

(** The error taxonomy of the specification, by the message of the
    [ValueError] that the code raises. *)
Definition InvalidLimit : exn := ValueError "Invalid budget limit".
Definition InvalidAmount : exn := ValueError "Invalid amount".
Definition InvalidDate (e : exn) : Prop :=
  e = ValueError "Invalid date format" \/ e = ValueError "Invalid date".

(** An input is numeric when [float()] converts it. *)
Definition numeric (x : pyobj) (f : float) : Prop := py_float x = Ok f.
Definition non_numeric (x : pyobj) : Prop := forall f, py_float x <> Ok f.

(** The percentage as the specification words it: [spent/limit*100], and 0
    when the limit is 0. *)
Definition spec_percentage (limit spent : float) : float :=
  if SFeqb limit pzero then pzero else mul (div spent limit) (of_Z 100).

(** [0 <= x]: a zero of either sign, a positive finite number or [+inf]. *)
Definition nonneg (x : float) : Prop := leb pzero x = true.

(** An amount that [float()] converts to a value that is at least 0. *)
Definition nonneg_amount (x : pyobj) : Prop :=
  exists f, py_float x = Ok f /\ nonneg f.

(** ** Calendar dates, as the specification means them *)

Definition digit_char (n : Z) : ascii := ascii_of_nat (Z.to_nat n + 48).

Definition two_digits (n : Z) : string :=
  String (digit_char (n / 10)) (String (digit_char (n mod 10)) EmptyString).

Definition four_digits (n : Z) : string :=
  String (digit_char (n / 1000))
    (String (digit_char (n / 100 mod 10)) (two_digits (n mod 100))).

Definition leap_year (y : Z) : bool :=
  ((y mod 4 =? 0) && negb (y mod 100 =? 0)) || (y mod 400 =? 0).

Definition month_length (y m : Z) : Z :=
  match m with
  | 1 | 3 | 5 | 7 | 8 | 10 | 12 => 31
  | 4 | 6 | 9 | 11 => 30
  | 2 => if leap_year y then 29 else 28
  | _ => 0
  end.

(** A day of the Gregorian calendar, in the years 1 to 9999. *)
Definition calendar_date (y m d : Z) : Prop :=
  1 <= y <= 9999 /\ 1 <= m <= 12 /\ 1 <= d <= month_length y m.

(** The text [YYYY-MM-DD] of a date. *)
Definition iso_date (y m d : Z) : string :=
  four_digits y ++ "-" ++ two_digits m ++ "-" ++ two_digits d.

Definition real_date_string (s : string) : Prop :=
  exists y m d, calendar_date y m d /\ s = iso_date y m d.

(** The two-character months and days that [pattern] lets through. *)
Definition month_ok (m1 m2 : ascii) : bool :=
  (Ascii.eqb m1 "0" && Regex.in_range "1" "9" m2)
  || (Ascii.eqb m1 "1" && Regex.in_range "0" "2" m2).

Definition day_ok (d1 d2 : ascii) : bool :=
  (Ascii.eqb d1 "0" && Regex.in_range "1" "9" d2)
  || (Regex.mem d1 "12" && PyStr.isdigit d2)
  || (Ascii.eqb d1 "3" && Regex.mem d2 "01").

(** The text of a date, character by character, with what follows it. *)
Definition date_text (y1 y2 y3 y4 m1 m2 d1 d2 : ascii) (tail : string) : string :=
  String y1 (String y2 (String y3 (String y4 (String "-"
    (String m1 (String m2 (String "-" (String d1 (String d2 tail))))))))).

(** ** Normalised text, as the specification means it *)


Definition no_leading_space (s : string) : Prop :=
  match s with
  | EmptyString => True
  | String c _ => PyStr.isspace c = false
  end.




(** ** Example budgets *)

(** A budget with one limit that has been overspent. *)
Definition overspent : Budget.Budget :=
  {| Budget.limits := {[ "food" := of_Z 100 ]};
     Budget.spent := {[ "food" := of_Z 110 ]} |}.

(** A budget whose limit is negative, as [from_dict] loads it from a
    hand-edited snapshot. *)
Definition negative_limit : Budget.Budget :=
  {| Budget.limits := {[ "x" := of_Z (-5) ]};
     Budget.spent := {[ "x" := of_Z 10 ]} |}.

(** The budget after [set_limit("food", 100)] and [add_expense("food", 60)]. *)
Definition food_budget : Budget.Budget :=
  {| Budget.limits := {[ "food" := of_Z 100 ]};
     Budget.spent := {[ "food" := of_Z 60 ]} |}.

(** ** Budgets with normalised keys, and calls *)

(** Every category that has a limit is its own normal form. *)
Definition limit_keys_normal (self : Budget.Budget) : Prop :=
  forall k, is_Some (Budget.limits self !! k) -> normalize k = k.

(** A successful mutation of a budget. *)
Inductive call : Type :=
| SetLimit (category : string) (limit : pyobj)
| AddExpense (category : string) (amount : pyobj).

Definition run_call (op : call) : Budget.M unit :=
  match op with
  | SetLimit category limit => Budget.set_limit category limit
  | AddExpense category amount => Budget.add_expense category amount
  end.

Definition call_key (op : call) : string :=
  match op with
  | SetLimit category _ => normalize category
  | AddExpense category _ => normalize category
  end.

(** The categories of the rows among printed lines, in order. *)
Definition row_categories (lines : list Budget.line) : list string :=
  omap (fun l => match l with
                 | Budget.Row category _ _ _ _ => Some category
                 | _ => None
                 end) lines.

(** The argument of a call, once converted, is accepted or not whatever the
    budget is; an accepted call changes the budget as follows. *)
Definition call_accepts (op : call) (f : float) : Prop :=
  match op with
  | SetLimit _ limit => numeric limit f /\ leb f pzero = false
  | AddExpense _ amount => numeric amount f
  end.

Definition call_effect (op : call) (f : float) (self : Budget.Budget) : Budget.Budget :=
  match op with
  | SetLimit category _ =>
      {| Budget.limits := <[normalize category := round2 f]> (Budget.limits self);
         Budget.spent :=
           match Budget.spent self !! normalize category with
           | Some _ => Budget.spent self
           | None => <[normalize category := pzero]> (Budget.spent self)
           end |}
  | AddExpense category _ =>
      {| Budget.limits := Budget.limits self;
         Budget.spent :=
           <[normalize category :=
               add (default pzero (Budget.spent self !! normalize category)) f]>
             (Budget.spent self) |}
  end.

(** The categories with a limit, in the order in which the report and the
    summary go through them. *)
Definition sorted_limit_keys (self : Budget.Budget) : list string :=
  merge_sort String.le (map fst (map_to_list (Budget.limits self))).

(** A printed row shows the limit of its category, what was spent in it and
    the difference. *)
Definition row_shows (self : Budget.Budget) (l : Budget.line) : Prop :=
  match l with
  | Budget.Row category limit spent remaining _ =>
      Budget.limits self !! category = Some limit /\
      spent = default pzero (Budget.spent self !! category) /\
      remaining = sub limit spent
  | _ => True
  end.

(** ** Stored transactions *)

(** A transaction that a constructor call has returned. *)
Definition built (t : Transaction.Transaction) : Prop :=
  exists cls date amount category description,
    Transaction.init cls date amount category description = Ok t.

(** The stored amount passes [validate_amount] again, unchanged. *)
Definition revalidates (t : Transaction.Transaction) : Prop :=
  Transaction.validate_amount (PyFloat (Transaction.amount t))
  = Ok (Transaction.amount t).

(** A transaction as it comes back from the file: an object of the base
    class is written as an expense. *)
Definition as_saved (t : Transaction.Transaction) : Transaction.Transaction :=
  {| Transaction.date := Transaction.date t;
     Transaction.amount := Transaction.amount t;
     Transaction.category := Transaction.category t;
     Transaction.description := Transaction.description t;
     Transaction.transaction_id := Transaction.transaction_id t;
     Transaction.class :=
       match Transaction.class t with
       | Transaction.Income_ => Transaction.Income_
       | _ => Transaction.Expense_
       end |}.

(** The amounts of the expenses of category [k], in the order of the list. *)
Fixpoint expense_amounts (k : string) (ts : list Transaction.Transaction)
    : list float :=
  match ts with
  | [] => []
  | t :: rest =>
      if FinanceTracker.is_expense t && String.eqb (Transaction.category t) k
      then Transaction.amount t :: expense_amounts k rest
      else expense_amounts k rest
  end.

(** ** Example records *)

Definition salary_record : FileManager.json :=
  FileManager.JObject
    [("date", FileManager.JString "2024-11-01");
     ("amount", FileManager.JFloat (of_Z 2000));
     ("category", FileManager.JString "salary");
     ("description", FileManager.JString "Monthly paycheck");
     ("type", FileManager.JString "Income")].

Definition salary : Transaction.Transaction :=
  {| Transaction.date := "2024-11-01";
     Transaction.amount := of_Z 2000;
     Transaction.category := "salary";
     Transaction.description := "Monthly paycheck";
     Transaction.transaction_id := None;
     Transaction.class := Transaction.Income_ |}.

(** A record without its amount. *)
Definition broken_record : FileManager.json :=
  FileManager.JObject
    [("date", FileManager.JString "2024-11-02");
     ("category", FileManager.JString "groceries");
     ("description", FileManager.JString "Weekly shopping");
     ("type", FileManager.JString "Expense")].

(** The expense of 0.001 that is stored with the amount 0.0. *)
Definition free_lunch : Transaction.Transaction :=
  {| Transaction.date := "2024-11-02";
     Transaction.amount := pzero;
     Transaction.category := "food";
     Transaction.description := "lunch";
     Transaction.transaction_id := None;
     Transaction.class := Transaction.Expense_ |}.

(** ** The lines that [add_transaction] reads *)

(** The date used: the line entered, trimmed, or today's date for an empty
    line. *)
Definition entered_date (date today : string) : string :=
  if String.eqb (PyStr.strip date) "" then today else PyStr.strip date.

(** A tracker with other transactions or another budget, and the same files. *)
Definition with_state (self : FinanceTracker.FinanceTracker)
    (ts : list Transaction.Transaction) (b : Budget.Budget)
    : FinanceTracker.FinanceTracker :=
  {| FinanceTracker.transactions := ts;
     FinanceTracker.budget := b;
     FinanceTracker.transactions_file := FinanceTracker.transactions_file self;
     FinanceTracker.budget_file := FinanceTracker.budget_file self |}.

(** A budget with [amount] more spent in the category [k]. *)
Definition spend (k : string) (amount : float) (b : Budget.Budget) : Budget.Budget :=
  {| Budget.limits := Budget.limits b;
     Budget.spent :=
       <[k := add (default pzero (Budget.spent b !! k)) amount]> (Budget.spent b) |}.

(** The transaction that valid lines give. *)
Definition entered (cls : Transaction.class_name) (date : string) (f : float)
    (category description today : string) : Transaction.Transaction :=
  {| Transaction.date := entered_date date today;
     Transaction.amount := round2 f;
     Transaction.category := normalize category;
     Transaction.description := PyStr.strip description;
     Transaction.transaction_id := None;
     Transaction.class := cls |}.

(** A session with one expense of 60 in the category food, in memory. *)
Definition lunch : Transaction.Transaction :=
  {| Transaction.date := "2024-11-02";
     Transaction.amount := of_Z 60;
     Transaction.category := "food";
     Transaction.description := "lunch";
     Transaction.transaction_id := None;
     Transaction.class := Transaction.Expense_ |}.

Definition session : FinanceTracker.FinanceTracker :=
  {| FinanceTracker.transactions := [lunch];
     FinanceTracker.budget := food_budget;
     FinanceTracker.transactions_file := FileManager.Missing;
     FinanceTracker.budget_file := FileManager.Missing |}.

(** ** Dates in time *)



(** * Properties *)

(** ** Budget queries *)
Section BudgetQueries.
Import Budget.
Variable self : Budget.
Variable c : string.

Let k := normalize c.

Lemma get_remaining_unlimited :
  limits self !! k = None -> get_remaining c self = Return None self.
Proof.
  intros H. unfold get_remaining, mbind, limits_contains. fold (normalize c). fold k.
  rewrite H. rewrite bool_decide_eq_false_2; [reflexivity | ].
  intros [v Hv]. discriminate.
Qed.

Lemma get_remaining_limited limit :
  limits self !! k = Some limit ->
  get_remaining c self =
    Return (Some (sub limit (default pzero (spent self !! k)))) self.
Proof.
  intros H. unfold get_remaining, mbind, limits_contains, spent_get, limits_getitem.
  fold (normalize c). fold k.
  rewrite bool_decide_eq_true_2 by (rewrite H; eauto).
  cbn. rewrite H. reflexivity.
Qed.

Lemma get_status_unlimited :
  limits self !! k = None -> get_status c self = Return None self.
Proof.
  intros H. unfold get_status, mbind, limits_contains. fold (normalize c). fold k.
  rewrite H. rewrite bool_decide_eq_false_2; [reflexivity | ].
  intros [v Hv]. discriminate.
Qed.

Lemma get_status_limited limit :
  limits self !! k = Some limit ->
  let spent := default pzero (spent self !! k) in
  get_status c self =
    Return (Some {| status_category := k;
                    status_limit := limit;
                    status_spent := spent;
                    status_remaining := sub limit spent;
                    status_percentage :=
                      if ltb pzero limit then mul (div spent limit) (of_Z 100)
                      else pzero;
                    status_over_budget := ltb (sub limit spent) pzero |}) self.
Proof.
  intros H. unfold get_status, mbind, limits_contains, spent_get, limits_getitem.
  fold (normalize c). fold k.
  rewrite bool_decide_eq_true_2 by (rewrite H; eauto).
  cbn. rewrite H. reflexivity.
Qed.

End BudgetQueries.

(** C1. Without a limit for the normalised category, [get_remaining] returns
    [None] and [is_over_budget] returns [False], whatever was spent; with a
    limit, [get_remaining] returns the limit minus the amount spent (0.0 when
    nothing was spent) and [is_over_budget] tells whether that difference is
    strictly negative.  Neither call raises. *)
Theorem get_remaining_is_over_budget_spec (self : Budget.Budget) (c : string) :
  (Budget.limits self !! normalize c = None ->
     Budget.get_remaining c self = Budget.Return None self /\
     Budget.is_over_budget c self = Budget.Return false self) /\
  (forall limit, Budget.limits self !! normalize c = Some limit ->
     let remaining := sub limit (default pzero (Budget.spent self !! normalize c)) in
     Budget.get_remaining c self = Budget.Return (Some remaining) self /\
     Budget.is_over_budget c self = Budget.Return (ltb remaining pzero) self).
Proof.
  split.
  - intros H. pose proof (get_remaining_unlimited self c H) as Hr.
    split; [exact Hr | ].
    unfold Budget.is_over_budget, Budget.mbind. rewrite Hr. reflexivity.
  - intros limit H remaining.
    pose proof (get_remaining_limited self c limit H) as Hr.
    split; [exact Hr | ].
    unfold Budget.is_over_budget, Budget.mbind. rewrite Hr. reflexivity.
Qed.

Lemma get_remaining_is_over_budget_witness :
  Budget.get_remaining " Food " overspent = Budget.Return (Some (of_Z (-10))) overspent /\
  Budget.is_over_budget " Food " overspent = Budget.Return true overspent /\
  Budget.get_remaining "rent" overspent = Budget.Return None overspent /\
  Budget.is_over_budget "rent" overspent = Budget.Return false overspent.
Proof.
  destruct (get_remaining_is_over_budget_spec overspent " Food ") as [_ Hl].
  destruct (Hl (of_Z 100) eq_refl) as [Hr Ho].
  destruct (get_remaining_is_over_budget_spec overspent "rent") as [Hn _].
  destruct (Hn eq_refl) as [Hr' Ho'].
  repeat split; assumption.
Defined.

Lemma negative_limit_loaded :
  Budget.from_dict {| Budget.data_limits := Some {[ "x" := of_Z (-5) ]};
                      Budget.data_spent := Some {[ "x" := of_Z 10 ]} |} Budget.init
  = Budget.Return tt negative_limit.
Proof. reflexivity. Qed.

(** C2, as stated, fails: with a limit of -5 and 10 spent the code reports a
    percentage of 0, where [spent/limit*100] is -200. *)
Lemma get_status_percentage_counterexample :
  ~ (forall self c st,
       Budget.get_status c self = Budget.Return (Some st) self ->
       Budget.status_percentage st
       = spec_percentage (Budget.status_limit st) (Budget.status_spent st)).
Proof.
  intros H.
  specialize (H negative_limit "x" _ eq_refl).
  vm_compute in H. discriminate H.
Qed.

(** C2, amended. [get_status] returns [None] when the normalised category has
    no limit; otherwise it returns the category, the limit, the amount spent
    (0.0 when absent), [remaining = limit - spent], the percentage
    [spent/limit*100] when the limit is strictly positive and 0 in every other
    case, and [over_budget = (remaining < 0)]. *)
Theorem get_status_spec (self : Budget.Budget) (c : string) :
  (Budget.limits self !! normalize c = None ->
     Budget.get_status c self = Budget.Return None self) /\
  (forall limit, Budget.limits self !! normalize c = Some limit ->
     let spent := default pzero (Budget.spent self !! normalize c) in
     Budget.get_status c self =
       Budget.Return
         (Some {| Budget.status_category := normalize c;
                  Budget.status_limit := limit;
                  Budget.status_spent := spent;
                  Budget.status_remaining := sub limit spent;
                  Budget.status_percentage :=
                    if ltb pzero limit then mul (div spent limit) (of_Z 100)
                    else pzero;
                  Budget.status_over_budget := ltb (sub limit spent) pzero |})
         self).
Proof.
  split.
  - apply get_status_unlimited.
  - intros limit H. apply get_status_limited. exact H.
Qed.

Lemma get_status_witness :
  Budget.get_status "rent" overspent = Budget.Return None overspent /\
  exists st,
    Budget.get_status "FOOD" overspent = Budget.Return (Some st) overspent /\
    Budget.status_percentage st = mul (div (of_Z 110) (of_Z 100)) (of_Z 100) /\
    Budget.status_over_budget st = true.
Proof.
  destruct (get_status_spec overspent "rent") as [Hn _].
  destruct (get_status_spec overspent "FOOD") as [_ Hl].
  split; [exact (Hn eq_refl) | ].
  eexists. split; [exact (Hl (of_Z 100) eq_refl) | split; reflexivity].
Defined.

(** On the limits that validation lets through, the code's percentage is the
    one of the specification. *)
Lemma percentage_agrees_on_positive_limits (limit spent : float) :
  ltb pzero limit = true ->
  spec_percentage limit spent = mul (div spent limit) (of_Z 100).
Proof.
  unfold spec_percentage. destruct limit as [s | s | | s m e]; simpl; try discriminate.
  - destruct s; reflexivity.
  - destruct s; reflexivity.
Qed.

(** ** The queries are reads *)

Lemma get_status_returns (self : Budget.Budget) (c : string) :
  exists r, Budget.get_status c self = Budget.Return r self.
Proof.
  destruct (Budget.limits self !! normalize c) as [limit | ] eqn:H.
  - eexists. apply get_status_limited. exact H.
  - eexists. apply get_status_unlimited. exact H.
Qed.

Lemma report_loop_returns (self : Budget.Budget) (categories : list string) :
  forall report, exists r,
    Budget.report_loop categories report self = Budget.Return r self.
Proof.
  induction categories as [ | c rest IH]; intros report; simpl.
  - eexists. reflexivity.
  - unfold Budget.mbind.
    destruct (get_status_returns self c) as [[st | ] ->]; apply IH.
Qed.

(** C10. Each of the queries [get_remaining], [is_over_budget], [get_status],
    [get_all_categories], [get_budget_report] and [to_dict] returns without
    raising and leaves [limits] and [spent] as they were. *)
Theorem queries_leave_budget_unchanged (self : Budget.Budget) (c : string) :
  (exists r, Budget.get_remaining c self = Budget.Return r self) /\
  (exists r, Budget.is_over_budget c self = Budget.Return r self) /\
  (exists r, Budget.get_status c self = Budget.Return r self) /\
  (exists r, Budget.get_all_categories self = Budget.Return r self) /\
  (exists r, Budget.get_budget_report self = Budget.Return r self) /\
  (exists r, Budget.to_dict self = Budget.Return r self).
Proof.
  assert (Hrem : exists r, Budget.get_remaining c self = Budget.Return r self).
  { destruct (Budget.limits self !! normalize c) as [limit | ] eqn:H.
    - eexists. apply get_remaining_limited. exact H.
    - eexists. apply get_remaining_unlimited. exact H. }
  split; [exact Hrem | ].
  split.
  { unfold Budget.is_over_budget, Budget.mbind.
    destruct Hrem as [[r | ] ->]; eexists; reflexivity. }
  split; [apply get_status_returns | ].
  split; [eexists; reflexivity | ].
  split; [ | eexists; reflexivity].
  unfold Budget.get_budget_report, Budget.mbind, Budget.limits_keys.
  apply report_loop_returns.
Qed.

(** ** The two mutators, evaluated *)

Lemma set_limit_eval (self : Budget.Budget) (category : string) (limit : pyobj) :
  Budget.set_limit category limit self =
    match py_float limit with
    | Ok f =>
        if leb f pzero then Budget.Raise InvalidLimit self
        else
          Budget.Return tt
            {| Budget.limits := <[normalize category := round2 f]> (Budget.limits self);
               Budget.spent :=
                 match Budget.spent self !! normalize category with
                 | Some _ => Budget.spent self
                 | None => <[normalize category := pzero]> (Budget.spent self)
                 end |}
    | Err (ValueError _) | Err (TypeError _) => Budget.Raise InvalidLimit self
    | Err e => Budget.Raise e self
    end.
Proof.
  unfold Budget.set_limit, Budget.try_except, Budget.mbind, Budget.lift.
  fold (normalize category).
  destruct (py_float limit) as [f | [msg | msg | msg | msg]]; try reflexivity.
  change (of_Z 0) with pzero. cbn.
  destruct (leb f pzero); [reflexivity | ]. cbn.
  destruct (Budget.spent self !! normalize category) as [v | ] eqn:Hs;
    reflexivity.
Qed.

Lemma add_expense_eval (self : Budget.Budget) (category : string) (amount : pyobj) :
  Budget.add_expense category amount self =
    match py_float amount with
    | Ok f =>
        Budget.Return tt
          {| Budget.limits := Budget.limits self;
             Budget.spent :=
               <[normalize category :=
                   add (default pzero (Budget.spent self !! normalize category)) f]>
                 (Budget.spent self) |}
    | Err e => Budget.Raise e self
    end.
Proof.
  unfold Budget.add_expense, Budget.mbind, Budget.lift.
  fold (normalize category).
  destruct (py_float amount) as [f | e]; [ | reflexivity]. cbn.
  unfold Budget.spent_contains, Budget.spent_getitem.
  destruct (Budget.spent self !! normalize category) as [v | ] eqn:Hs; cbn.
  - rewrite Hs. reflexivity.
  - rewrite lookup_insert_eq. unfold Budget.spent_setitem. cbn.
    rewrite insert_insert_eq. reflexivity.
Qed.

(** [set_limit] raises [InvalidLimit] exactly when [float()] rejects the limit
    with a [ValueError] or a [TypeError], or converts it to a value that is at
    most 0. *)
Lemma set_limit_raises_InvalidLimit (self : Budget.Budget) (category : string)
    (limit : pyobj) :
  (exists self', Budget.set_limit category limit self = Budget.Raise InvalidLimit self')
  <->
  ((exists msg, py_float limit = Err (ValueError msg)) \/
   (exists msg, py_float limit = Err (TypeError msg)) \/
   (exists f, py_float limit = Ok f /\ leb f pzero = true)).
Proof.
  rewrite set_limit_eval. split.
  - intros [self' H].
    destruct (py_float limit) as [f | [msg | msg | msg | msg]]; eauto;
      try discriminate H.
    destruct (leb f pzero) eqn:Hf; [eauto | discriminate H].
  - intros [[msg ->] | [[msg ->] | [f [-> Hf]]]]; eauto.
    rewrite Hf. eauto.
Qed.

(** A call of [set_limit] that raises leaves both maps as they were. *)
Lemma set_limit_raise_unchanged (self self' : Budget.Budget) (category : string)
    (limit : pyobj) (e : exn) :
  Budget.set_limit category limit self = Budget.Raise e self' -> self' = self.
Proof.
  rewrite set_limit_eval.
  destruct (py_float limit) as [f | [msg | msg | msg | msg]].
  - destruct (leb f pzero); congruence.
  - congruence.
  - congruence.
  - congruence.
  - congruence.
Qed.

(** C3, the failing input: an integer too large for a float is at most 0 and
    is not converted, yet the call ends with [OverflowError], which the
    [except (ValueError, TypeError)] clause lets through, and not with
    [InvalidLimit]. *)
Theorem set_limit_huge_int_overflows :
  (- 10 ^ 400 <= 0) /\
  non_numeric (PyInt (- 10 ^ 400)) /\
  Budget.set_limit "rent" (PyInt (- 10 ^ 400)) Budget.init
  = Budget.Raise (OverflowError "int too large to convert to float") Budget.init.
Proof.
  split; [ | split].
  - vm_compute. discriminate.
  - intros f H. vm_compute in H. discriminate H.
  - vm_compute. reflexivity.
Qed.

(** C5, the failing input: the limit 0.001 passes the positivity check and is
    stored as [round(0.001, 2)], which is 0.0. *)
Theorem set_limit_stores_zero :
  exists self,
    Budget.set_limit "rent" (PyStr "0.001") Budget.init = Budget.Return tt self /\
    Budget.reachable self /\
    Budget.limits self !! "rent" = Some pzero /\
    ltb pzero pzero = false.
Proof.
  eexists. split; [vm_compute; reflexivity | ].
  split; [ | split; reflexivity].
  apply Budget.reach_set_limit
    with (self := Budget.init) (category := "rent") (limit := PyStr "0.001");
    [apply Budget.reach_init | vm_compute; reflexivity].
Qed.

(** The same check lets NaN through: [float("nan") <= 0] is false. *)
Lemma set_limit_stores_nan :
  exists self,
    Budget.set_limit "rent" (PyStr "nan") Budget.init = Budget.Return tt self /\
    Budget.limits self !! "rent" = Some S754_nan /\
    ltb pzero S754_nan = false.
Proof.
  eexists. split; [vm_compute; reflexivity | split; reflexivity].
Qed.

(** ** Signs of binary64 sums *)
Section FloatSigns.

Lemma shr_1_nonneg (mrs : shr_record) :
  0 <= shr_m mrs -> 0 <= shr_m (shr_1 mrs).
Proof.
  destruct mrs as [m r s]. simpl.
  destruct m as [ | [p | p | ] | [p | p | ]]; simpl; lia.
Qed.

Lemma iter_shr_1_nonneg (p : positive) :
  forall mrs, 0 <= shr_m mrs -> 0 <= shr_m (SpecFloat.iter_pos shr_1 p mrs).
Proof.
  induction p as [p IH | p IH | ]; intros mrs H; simpl.
  - apply IH, IH, shr_1_nonneg, H.
  - apply IH, IH, H.
  - apply shr_1_nonneg, H.
Qed.

Lemma shr_fexp_nonneg (m e : Z) (l : location) :
  0 <= m -> 0 <= shr_m (fst (shr_fexp prec emax m e l)).
Proof.
  intros H. unfold shr_fexp, shr.
  assert (H0 : 0 <= shr_m (shr_record_of_loc m l)).
  { destruct l as [ | [ | | ]]; exact H. }
  destruct (fexp prec emax (Zdigits2 m + e) - e) as [ | p | p]; simpl;
    auto using iter_shr_1_nonneg.
Qed.

Lemma round_nearest_even_nonneg (m : Z) (l : location) :
  0 <= m -> 0 <= round_nearest_even m l.
Proof.
  intros H. destruct l as [ | [ | | ]]; simpl; try lia.
  destruct (Z.even m); lia.
Qed.

Lemma binary_round_aux_nonneg (m e : Z) (l : location) :
  0 <= m -> nonneg (binary_round_aux prec emax false m e l).
Proof.
  intros H. unfold binary_round_aux.
  pose proof (shr_fexp_nonneg m e l H) as H1.
  destruct (shr_fexp prec emax m e l) as [mrs' e']. simpl in H1.
  pose proof (shr_fexp_nonneg _ e' loc_Exact
                (round_nearest_even_nonneg _ (loc_of_shr_record mrs') H1)) as H2.
  destruct (shr_fexp prec emax
              (round_nearest_even (shr_m mrs') (loc_of_shr_record mrs')) e' loc_Exact)
    as [mrs'' e'']. simpl in H2.
  destruct (shr_m mrs'') as [ | p | p]; [reflexivity | | lia].
  destruct (e'' <=? emax - prec); reflexivity.
Qed.

Lemma binary_round_nonneg (m : positive) (e : Z) :
  nonneg (binary_round prec emax false m e).
Proof.
  unfold binary_round.
  destruct (shl_align m e (fexp prec emax (Z.pos (digits2_pos m) + e))) as [mz ez].
  apply binary_round_aux_nonneg. lia.
Qed.

Lemma nonneg_inv (x : float) :
  nonneg x ->
  (exists s, x = S754_zero s) \/ x = S754_infinity false \/
  (exists m e, x = S754_finite false m e).
Proof.
  unfold nonneg. destruct x as [s | [ | ] | | [ | ] m e]; cbv; intros H;
    try discriminate H; eauto.
Qed.

(** The sum of two non-negative floats is non-negative. *)
Lemma add_nonneg (x y : float) : nonneg x -> nonneg y -> nonneg (add x y).
Proof.
  intros Hx Hy.
  destruct (nonneg_inv x Hx) as [[sx ->] | [-> | [mx [ex ->]]]];
    destruct (nonneg_inv y Hy) as [[sy ->] | [-> | [my [ey ->]]]];
    try reflexivity.
  - destruct sx, sy; reflexivity.
  - unfold add, SFadd, cond_Zopp, binary_normalize.
    cbn [Z.add]. apply binary_round_nonneg.
Qed.

Lemma nonneg_not_negative (x : float) : nonneg x -> ltb x pzero = false.
Proof.
  intros H.
  destruct (nonneg_inv x H) as [[s ->] | [-> | [m [e ->]]]]; reflexivity.
Qed.

Lemma SFdiv_core_nonneg (m1 e1 m2 e2 : Z) :
  0 <= m1 -> 0 < m2 ->
  0 <= fst (fst (SFdiv_core_binary prec emax m1 e1 m2 e2)).
Proof.
  intros H1 H2. unfold SFdiv_core_binary.
  set (e' := Z.min _ _). set (sh := e1 - e2 - e').
  set (m' := match sh with Z.pos _ => Z.shiftl m1 sh | 0 => m1 | Z.neg _ => 0 end).
  assert (Hm' : 0 <= m').
  { subst m'. destruct sh; [exact H1 | apply Z.shiftl_nonneg; exact H1 | lia]. }
  destruct (Z.div_eucl m' m2) as [q r] eqn:E. simpl.
  replace q with (m' / m2) by (unfold Z.div; rewrite E; reflexivity).
  apply Z.div_pos; assumption.
Qed.

Lemma of_ratio_nonneg (n d : positive) : nonneg (of_ratio false n d).
Proof.
  unfold of_ratio, SFdiv.
  pose proof (SFdiv_core_nonneg (Z.pos n) 0 (Z.pos d) 0 ltac:(lia) ltac:(lia)) as H.
  destruct (SFdiv_core_binary prec emax (Z.pos n) 0 (Z.pos d) 0) as [[mz ez] lz].
  apply binary_round_aux_nonneg. exact H.
Qed.

(** Rounding a value that passed the check [x <= 0] never gives a negative
    number: the result is at least 0, or NaN. *)
Lemma round2_not_negative (x : float) :
  leb x pzero = false -> ltb (round2 x) pzero = false.
Proof.
  destruct x as [s | [ | ] | | [ | ] m e]; try (cbv; congruence).
  intros _. unfold round2.
  destruct (0 <=? e); [reflexivity | ].
  destruct (div_half_even (Z.pos m * 100) (2 ^ (- e))); try reflexivity.
  apply nonneg_not_negative, of_ratio_nonneg.
Qed.

End FloatSigns.

(** What holds of the stored limits: none is negative. *)
Lemma limits_not_negative (self : Budget.Budget) :
  Budget.reachable self ->
  forall k v, Budget.limits self !! k = Some v -> ltb v pzero = false.
Proof.
  induction 1 as [ | self category limit self' Hreach IH Hcall
                   | self category amount self' Hreach IH Hallowed Hcall];
    intros k v Hk.
  - change (Budget.limits Budget.init) with (∅ : gmap string float) in Hk.
    rewrite lookup_empty in Hk. discriminate Hk.
  - rewrite set_limit_eval in Hcall.
    destruct (py_float limit) as [f | [msg | msg | msg | msg]];
      try discriminate Hcall.
    destruct (leb f pzero) eqn:Hf; [discriminate Hcall | ].
    injection Hcall as <-. cbn in Hk.
    destruct (decide (normalize category = k)) as [<- | Hne].
    + rewrite lookup_insert_eq in Hk. injection Hk as <-.
      apply round2_not_negative, Hf.
    + rewrite lookup_insert_ne in Hk by exact Hne. eapply IH, Hk.
  - rewrite add_expense_eval in Hcall.
    destruct (py_float amount) as [f | e]; [ | discriminate Hcall].
    injection Hcall as <-. eapply IH, Hk.
Qed.

(** ** The amounts spent *)

(** C4, as stated, fails: [add_expense] accepts a negative amount. *)
Lemma spent_nonnegative_counterexample :
  ~ (forall self, Budget.reachable self ->
       forall k v, Budget.spent self !! k = Some v -> nonneg v).
Proof.
  intros H.
  assert (Hr : Budget.reachable
                 {| Budget.limits := ∅; Budget.spent := {[ "rent" := of_Z (-5) ]} |}).
  { apply Budget.reach_add_expense
      with (self := Budget.init) (category := "rent") (amount := PyInt (-5)).
    - apply Budget.reach_init.
    - exact I.
    - vm_compute. reflexivity. }
  specialize (H _ Hr "rent" (of_Z (-5)) eq_refl).
  vm_compute in H. discriminate H.
Qed.

(** C4, amended. In every budget built from the empty one by successful
    [set_limit] and [add_expense] calls whose expense amounts are all at least
    0, every value of the [spent] map is at least 0. *)
Theorem spent_nonnegative (self : Budget.Budget) :
  Budget.reachable_with nonneg_amount self ->
  forall k v, Budget.spent self !! k = Some v -> nonneg v.
Proof.
  induction 1 as [ | self category limit self' Hreach IH Hcall
                   | self category amount self' Hreach IH Hallowed Hcall];
    intros k v Hk.
  - change (Budget.spent Budget.init) with (∅ : gmap string float) in Hk.
    rewrite lookup_empty in Hk. discriminate Hk.
  - rewrite set_limit_eval in Hcall.
    destruct (py_float limit) as [f | [msg | msg | msg | msg]];
      try discriminate Hcall.
    destruct (leb f pzero); [discriminate Hcall | ].
    injection Hcall as <-. cbn in Hk.
    destruct (Budget.spent self !! normalize category) as [w | ] eqn:Hw.
    + eapply IH, Hk.
    + destruct (decide (normalize category = k)) as [<- | Hne].
      * rewrite lookup_insert_eq in Hk. injection Hk as <-. reflexivity.
      * rewrite lookup_insert_ne in Hk by exact Hne. eapply IH, Hk.
  - rewrite add_expense_eval in Hcall.
    destruct Hallowed as [f [Hf Hpos]]. rewrite Hf in Hcall.
    injection Hcall as <-. cbn in Hk.
    destruct (decide (normalize category = k)) as [<- | Hne].
    + rewrite lookup_insert_eq in Hk. injection Hk as <-.
      apply add_nonneg; [ | exact Hpos].
      destruct (Budget.spent self !! normalize category) as [w | ] eqn:Hw.
      * eapply IH, Hw.
      * reflexivity.
    + rewrite lookup_insert_ne in Hk by exact Hne. eapply IH, Hk.
Qed.

Lemma food_budget_reachable : Budget.reachable_with nonneg_amount food_budget.
Proof.
  apply Budget.reach_add_expense
    with (self := {| Budget.limits := {[ "food" := of_Z 100 ]};
                     Budget.spent := {[ "food" := pzero ]} |})
         (category := "food") (amount := PyInt 60).
  - apply Budget.reach_set_limit
      with (self := Budget.init) (category := "food") (limit := PyInt 100).
    + apply Budget.reach_init.
    + vm_compute. reflexivity.
  - exists (of_Z 60). split; reflexivity.
  - vm_compute. reflexivity.
Defined.

Lemma spent_nonnegative_witness : nonneg (of_Z 60).
Proof.
  apply (spent_nonnegative food_budget food_budget_reachable "food" (of_Z 60)).
  reflexivity.
Defined.

(** ** Characters *)

Ltac each_char c := destruct c as [[] [] [] [] [] [] [] []].

Lemma isdigit_digit_char (c : ascii) :
  PyStr.isdigit c = true ->
  digit_char (PyStr.digit_value c) = c /\ 0 <= PyStr.digit_value c <= 9.
Proof. each_char c; intros H; try discriminate H; vm_compute; intuition congruence. Qed.

(** A property checked on every integer of a range holds on the range. *)
Lemma Z_range_forallb (P : Z -> bool) (lo len : Z) :
  forallb P (seqZ lo len) = true ->
  forall n, lo <= n < lo + len -> P n = true.
Proof.
  intros H n Hn. rewrite forallb_forall in H. apply H.
  apply list_elem_of_In, elem_of_seqZ. exact Hn.
Qed.

Lemma digit_char_isdigit (n : Z) :
  0 <= n <= 9 ->
  PyStr.isdigit (digit_char n) = true /\ PyStr.digit_value (digit_char n) = n.
Proof.
  intros H.
  pose proof (Z_range_forallb
                (fun n => PyStr.isdigit (digit_char n)
                          && (PyStr.digit_value (digit_char n) =? n))
                0 10 eq_refl n ltac:(lia)) as Hn.
  apply andb_true_iff in Hn as [Hd Hv]. apply Z.eqb_eq in Hv. auto.
Qed.

Lemma isdigit_not_space (c : ascii) : PyStr.isdigit c = true -> PyStr.isspace c = false.
Proof. each_char c; intros H; try discriminate H; reflexivity. Qed.

Lemma in_range_1_9 (c : ascii) :
  Regex.in_range "1" "9" c = true ->
  PyStr.isdigit c = true /\ 1 <= PyStr.digit_value c <= 9.
Proof. each_char c; intros H; try discriminate H; vm_compute; intuition congruence. Qed.

Lemma in_range_0_2 (c : ascii) :
  Regex.in_range "0" "2" c = true ->
  PyStr.isdigit c = true /\ 0 <= PyStr.digit_value c <= 2.
Proof. each_char c; intros H; try discriminate H; vm_compute; intuition congruence. Qed.

(** ** The matcher, step by step *)
Section Matcher.
Import Regex.
Context {A : Type}.
Implicit Types (s : string) (k : string -> string -> option A) (a : A).

Lemma run_Seq r1 r2 s k :
  run (Seq r1 r2) s k
  = run r1 s (fun g1 s1 => run r2 s1 (fun g2 s2 => k (g1 ++ g2) s2)).
Proof. reflexivity. Qed.

Lemma step_inv (p : ascii -> bool) s k a :
  step p s k = Some a ->
  exists c s', s = String c s' /\ p c = true /\ k (String c EmptyString) s' = Some a.
Proof.
  destruct s as [ | c s']; simpl; [discriminate | ].
  destruct (p c) eqn:Hp; [eauto | discriminate].
Qed.

Lemma run_Chr_inv c s k a :
  run (Chr c) s k = Some a ->
  exists s', s = String c s' /\ k (String c EmptyString) s' = Some a.
Proof.
  intros H. apply step_inv in H as (c' & s' & -> & Hc & H).
  apply Ascii.eqb_eq in Hc. subst c'. eauto.
Qed.

Lemma run_Digit_inv s k a :
  run Digit s k = Some a ->
  exists c s', s = String c s' /\ PyStr.isdigit c = true
               /\ k (String c EmptyString) s' = Some a.
Proof. apply step_inv. Qed.

Lemma run_Range_inv lo hi s k a :
  run (Range lo hi) s k = Some a ->
  exists c s', s = String c s' /\ in_range lo hi c = true
               /\ k (String c EmptyString) s' = Some a.
Proof. apply step_inv. Qed.

Lemma run_OneOf_inv cs s k a :
  run (OneOf cs) s k = Some a ->
  exists c s', s = String c s' /\ mem c cs = true
               /\ k (String c EmptyString) s' = Some a.
Proof. apply (step_inv (fun c => mem c cs)). Qed.

Lemma run_Alt_inv r1 r2 s k a :
  run (Alt r1 r2) s k = Some a -> run r1 s k = Some a \/ run r2 s k = Some a.
Proof. simpl. destruct (run r1 s k); auto. Qed.

Lemma run_Eol_inv s k a :
  run Eol s k = Some a ->
  (s = EmptyString \/ s = String "010" EmptyString) /\ k EmptyString s = Some a.
Proof.
  destruct s as [ | c [ | c' s']]; simpl; try discriminate; auto.
  destruct (Ascii.eqb c "010") eqn:Hc; [ | discriminate].
  apply Ascii.eqb_eq in Hc. subst c. auto.
Qed.

End Matcher.

Ltac run_inv H :=
  repeat rewrite run_Seq in H;
  first
    [ apply run_Chr_inv in H as (? & -> & H)
    | apply run_Digit_inv in H as (? & ? & -> & ? & H)
    | apply run_Range_inv in H as (? & ? & -> & ? & H)
    | apply run_OneOf_inv in H as (? & ? & -> & ? & H)
    | apply run_Eol_inv in H as (? & H)
    | apply run_Alt_inv in H as [H | H] ];
  cbv beta in H.

Lemma pattern_inv (s : string) :
  Regex.re_match Transaction.pattern s = true ->
  exists y1 y2 y3 y4 m1 m2 d1 d2 tail,
    s = date_text y1 y2 y3 y4 m1 m2 d1 d2 tail /\
    (PyStr.isdigit y1 = true /\ PyStr.isdigit y2 = true /\
     PyStr.isdigit y3 = true /\ PyStr.isdigit y4 = true) /\
    month_ok m1 m2 = true /\ day_ok d1 d2 = true /\
    (tail = EmptyString \/ tail = String "010" EmptyString).
Proof.
  unfold Regex.re_match. intros H.
  destruct (Regex.run Transaction.pattern s (fun _ _ => Some tt)) as [[] | ] eqn:Hrun;
    [clear H | discriminate H].
  unfold Transaction.pattern in Hrun.
  repeat run_inv Hrun.
  all: do 9 eexists; split; [reflexivity | ]; unfold month_ok, day_ok;
    repeat match goal with E : _ = true |- _ => rewrite E; clear E end;
    cbn; rewrite ?orb_true_r; auto.
Qed.

Lemma month_ok_inv (m1 m2 : ascii) :
  month_ok m1 m2 = true ->
  (m1 = "0"%char /\ Regex.in_range "1" "9" m2 = true) \/
  (m1 = "1"%char /\ Regex.in_range "0" "2" m2 = true).
Proof.
  unfold month_ok. intros H.
  apply orb_true_iff in H as [H | H]; apply andb_true_iff in H as [H1 H2];
    apply Ascii.eqb_eq in H1; auto.
Qed.

Lemma day_ok_inv (d1 d2 : ascii) :
  day_ok d1 d2 = true ->
  (d1 = "0"%char /\ Regex.in_range "1" "9" d2 = true) \/
  ((d1 = "1"%char \/ d1 = "2"%char) /\ PyStr.isdigit d2 = true) \/
  (d1 = "3"%char /\ (d2 = "0"%char \/ d2 = "1"%char)).
Proof.
  unfold day_ok, Regex.mem. intros H.
  repeat (apply orb_true_iff in H as [H | H]);
    apply andb_true_iff in H as [H1 H2].
  - apply Ascii.eqb_eq in H1. auto.
  - right; left. split; [ | exact H2].
    repeat (apply orb_true_iff in H1 as [H1 | H1]);
      try apply Ascii.eqb_eq in H1; auto. discriminate H1.
  - right; right. apply Ascii.eqb_eq in H1. split; [exact H1 | ].
    repeat (apply orb_true_iff in H2 as [H2 | H2]);
      try apply Ascii.eqb_eq in H2; auto. discriminate H2.
Qed.

#[local] Arguments Transaction.int : simpl never.
#[local] Arguments Transaction.check_date_fields : simpl never.

Ltac use_facts :=
  repeat (cbn;
          match goal with
          | E : PyStr.isdigit _ = true |- _ => rewrite E
          | E : Regex.in_range _ _ _ = true |- _ => rewrite E
          end).

Ltac date_cases Hm Hd :=
  apply month_ok_inv in Hm as [[-> Hm] | [-> Hm]];
  apply day_ok_inv in Hd as [[-> Hd] | [[[-> | ->] Hd] | [-> [-> | ->]]]].

(** [pattern] accepts the text of a date, also before a final newline. *)
Lemma pattern_shape (y1 y2 y3 y4 m1 m2 d1 d2 : ascii) (tail : string) :
  PyStr.isdigit y1 = true -> PyStr.isdigit y2 = true ->
  PyStr.isdigit y3 = true -> PyStr.isdigit y4 = true ->
  month_ok m1 m2 = true -> day_ok d1 d2 = true ->
  tail = EmptyString \/ tail = String "010" EmptyString ->
  Regex.re_match Transaction.pattern (date_text y1 y2 y3 y4 m1 m2 d1 d2 tail) = true.
Proof.
  intros H1 H2 H3 H4 Hm Hd Ht.
  unfold Regex.re_match, Transaction.pattern, date_text.
  date_cases Hm Hd; destruct Ht as [-> | ->]; use_facts; reflexivity.
Qed.

(** [strptime] reads the same text as the date it names, and refuses
    anything after it. *)
Lemma strptime_shape (y1 y2 y3 y4 m1 m2 d1 d2 : ascii) (tail : string) :
  PyStr.isdigit y1 = true -> PyStr.isdigit y2 = true ->
  PyStr.isdigit y3 = true -> PyStr.isdigit y4 = true ->
  month_ok m1 m2 = true -> day_ok d1 d2 = true ->
  Transaction.strptime (date_text y1 y2 y3 y4 m1 m2 d1 d2 tail) =
    match tail with
    | EmptyString =>
        Transaction.check_date_fields
          (Transaction.int (String y1 (String y2 (String y3 (String y4 EmptyString)))))
          (Transaction.int (String m1 (String m2 EmptyString)))
          (Transaction.int (String d1 (String d2 EmptyString)))
    | _ => Err (ValueError "unconverted data remains")
    end.
Proof.
  intros H1 H2 H3 H4 Hm Hd.
  unfold Transaction.strptime, Transaction.group_Y, Transaction.group_m,
    Transaction.group_d, date_text.
  date_cases Hm Hd; use_facts; reflexivity.
Qed.

(** ** Digits and numbers *)

Lemma int_four (y1 y2 y3 y4 : ascii) :
  PyStr.isdigit y1 = true -> PyStr.isdigit y2 = true ->
  PyStr.isdigit y3 = true -> PyStr.isdigit y4 = true ->
  Transaction.int (String y1 (String y2 (String y3 (String y4 EmptyString))))
  = 1000 * PyStr.digit_value y1 + 100 * PyStr.digit_value y2
    + 10 * PyStr.digit_value y3 + PyStr.digit_value y4.
Proof.
  intros H1 H2 H3 H4.
  apply isdigit_not_space in H1, H2, H3, H4.
  unfold Transaction.int, PyStr.strip, PyStr.int_of_digits.
  cbn [PyStr.lstrip]. rewrite H1. cbn [PyStr.rstrip]. rewrite H1, H2, H3, H4.
  cbn [PyStr.int_of_digits_from]. lia.
Qed.

Lemma int_two (c1 c2 : ascii) :
  PyStr.isdigit c1 = true -> PyStr.isdigit c2 = true ->
  Transaction.int (String c1 (String c2 EmptyString))
  = 10 * PyStr.digit_value c1 + PyStr.digit_value c2.
Proof.
  intros H1 H2.
  apply isdigit_not_space in H1, H2.
  unfold Transaction.int, PyStr.strip, PyStr.int_of_digits.
  cbn [PyStr.lstrip]. rewrite H1. cbn [PyStr.rstrip]. rewrite H1, H2.
  cbn [PyStr.int_of_digits_from]. lia.
Qed.

Lemma two_digits_value (a b : Z) :
  0 <= a <= 9 -> 0 <= b <= 9 ->
  two_digits (10 * a + b) = String (digit_char a) (String (digit_char b) EmptyString).
Proof.
  intros Ha Hb. unfold two_digits.
  replace ((10 * a + b) / 10) with a by (Z.div_mod_to_equations; lia).
  replace ((10 * a + b) mod 10) with b by (Z.div_mod_to_equations; lia).
  reflexivity.
Qed.

Lemma four_digits_value (a b c d : Z) :
  0 <= a <= 9 -> 0 <= b <= 9 -> 0 <= c <= 9 -> 0 <= d <= 9 ->
  four_digits (1000 * a + 100 * b + 10 * c + d)
  = String (digit_char a) (String (digit_char b)
      (String (digit_char c) (String (digit_char d) EmptyString))).
Proof.
  intros Ha Hb Hc Hd. unfold four_digits.
  replace ((1000 * a + 100 * b + 10 * c + d) / 1000) with a
    by (Z.div_mod_to_equations; lia).
  replace ((1000 * a + 100 * b + 10 * c + d) / 100 mod 10) with b
    by (Z.div_mod_to_equations; lia).
  replace ((1000 * a + 100 * b + 10 * c + d) mod 100) with (10 * c + d)
    by (Z.div_mod_to_equations; lia).
  rewrite two_digits_value by assumption. reflexivity.
Qed.

Lemma month_ok_digits (m1 m2 : ascii) :
  month_ok m1 m2 = true -> PyStr.isdigit m1 = true /\ PyStr.isdigit m2 = true.
Proof.
  intros H. apply month_ok_inv in H as [[-> H] | [-> H]].
  - apply in_range_1_9 in H as [H _]. auto.
  - apply in_range_0_2 in H as [H _]. auto.
Qed.

Lemma day_ok_digits (d1 d2 : ascii) :
  day_ok d1 d2 = true -> PyStr.isdigit d1 = true /\ PyStr.isdigit d2 = true.
Proof.
  intros H. apply day_ok_inv in H as [[-> H] | [[[-> | ->] H] | [-> [-> | ->]]]];
    auto.
  apply in_range_1_9 in H as [H _]. auto.
Qed.

(** ** The calendar *)

Lemma is_leap_leap_year (y : Z) : Transaction.is_leap y = leap_year y.
Proof.
  unfold Transaction.is_leap, leap_year.
  destruct (y mod 4 =? 0) eqn:H4, (y mod 100 =? 0) eqn:H100,
    (y mod 400 =? 0) eqn:H400; try reflexivity.
  all: apply Z.eqb_neq in H4; apply Z.eqb_eq in H400;
    exfalso; apply H4; clear H100; Z.div_mod_to_equations; lia.
Qed.

Lemma days_in_month_length (y m : Z) :
  1 <= m <= 12 -> Transaction.days_in_month y m = month_length y m.
Proof.
  intros H. unfold Transaction.days_in_month. rewrite is_leap_leap_year.
  destruct m as [ | p | p]; try lia.
  do 4 (try destruct p as [p | p | ]); try lia; reflexivity.
Qed.

Lemma month_length_le_31 (y m : Z) : month_length y m <= 31.
Proof.
  unfold month_length.
  destruct m as [ | p | p]; try lia.
  do 5 (try destruct p as [p | p | ]; try lia).
  all: destruct (leap_year y); lia.
Qed.

Lemma check_date_fields_inv (y m d : Z) :
  (calendar_date y m d /\ Transaction.check_date_fields y m d = Ok (y, m, d)) \/
  (~ calendar_date y m d /\
   exists msg, Transaction.check_date_fields y m d = Err (ValueError msg)).
Proof.
  unfold Transaction.check_date_fields, calendar_date.
  destruct ((1 <=? y) && (y <=? 9999)) eqn:Hy; cbn [negb].
  2: { right. split; [ | eauto]. apply andb_false_iff in Hy. lia. }
  destruct ((1 <=? m) && (m <=? 12)) eqn:Hm; cbn [negb].
  2: { right. split; [ | eauto]. apply andb_false_iff in Hm. lia. }
  apply andb_true_iff in Hy, Hm.
  rewrite days_in_month_length by lia.
  destruct ((1 <=? d) && (d <=? month_length y m)) eqn:Hd; cbn [negb].
  - left. apply andb_true_iff in Hd. split; [lia | reflexivity].
  - right. split; [ | eauto]. apply andb_false_iff in Hd. lia.
Qed.

(** The text of a calendar date, with what the two parsers see in it. *)
Lemma iso_date_shape (y m d : Z) :
  calendar_date y m d ->
  exists y1 y2 y3 y4 m1 m2 d1 d2,
    iso_date y m d = date_text y1 y2 y3 y4 m1 m2 d1 d2 EmptyString /\
    (PyStr.isdigit y1 = true /\ PyStr.isdigit y2 = true /\
     PyStr.isdigit y3 = true /\ PyStr.isdigit y4 = true) /\
    month_ok m1 m2 = true /\ day_ok d1 d2 = true /\
    Transaction.int (String y1 (String y2 (String y3 (String y4 EmptyString)))) = y /\
    Transaction.int (String m1 (String m2 EmptyString)) = m /\
    Transaction.int (String d1 (String d2 EmptyString)) = d.
Proof.
  intros (Hy & Hm & Hd).
  pose proof (month_length_le_31 y m) as Hlen.
  exists (digit_char (y / 1000)), (digit_char (y / 100 mod 10)),
    (digit_char (y mod 100 / 10)), (digit_char (y mod 100 mod 10)),
    (digit_char (m / 10)), (digit_char (m mod 10)),
    (digit_char (d / 10)), (digit_char (d mod 10)).
  split; [reflexivity | ].
  destruct (digit_char_isdigit (y / 1000)) as [Y1 V1];
    [Z.div_mod_to_equations; lia | ].
  destruct (digit_char_isdigit (y / 100 mod 10)) as [Y2 V2];
    [Z.div_mod_to_equations; lia | ].
  destruct (digit_char_isdigit (y mod 100 / 10)) as [Y3 V3];
    [Z.div_mod_to_equations; lia | ].
  destruct (digit_char_isdigit (y mod 100 mod 10)) as [Y4 V4];
    [Z.div_mod_to_equations; lia | ].
  split; [auto | ].
  pose proof (Z_range_forallb
                (fun m => month_ok (digit_char (m / 10)) (digit_char (m mod 10))
                          && (Transaction.int (two_digits m) =? m))
                1 12 eq_refl m ltac:(lia)) as Hmonth.
  pose proof (Z_range_forallb
                (fun d => day_ok (digit_char (d / 10)) (digit_char (d mod 10))
                          && (Transaction.int (two_digits d) =? d))
                1 31 eq_refl d ltac:(lia)) as Hday.
  apply andb_true_iff in Hmonth as [Hmok Hmint]. apply Z.eqb_eq in Hmint.
  apply andb_true_iff in Hday as [Hdok Hdint]. apply Z.eqb_eq in Hdint.
  repeat split; try assumption.
  rewrite int_four by assumption. rewrite V1, V2, V3, V4.
  Z.div_mod_to_equations. lia.
Qed.

(** The text that passes both checks is the text of the date it names. *)
Lemma date_text_iso (y1 y2 y3 y4 m1 m2 d1 d2 : ascii) :
  PyStr.isdigit y1 = true -> PyStr.isdigit y2 = true ->
  PyStr.isdigit y3 = true -> PyStr.isdigit y4 = true ->
  month_ok m1 m2 = true -> day_ok d1 d2 = true ->
  date_text y1 y2 y3 y4 m1 m2 d1 d2 EmptyString
  = iso_date
      (Transaction.int (String y1 (String y2 (String y3 (String y4 EmptyString)))))
      (Transaction.int (String m1 (String m2 EmptyString)))
      (Transaction.int (String d1 (String d2 EmptyString))).
Proof.
  intros H1 H2 H3 H4 Hm Hd.
  apply month_ok_digits in Hm as [Hm1 Hm2].
  apply day_ok_digits in Hd as [Hd1 Hd2].
  rewrite int_four by assumption. rewrite !int_two by assumption.
  destruct (isdigit_digit_char y1 H1) as [E1 B1].
  destruct (isdigit_digit_char y2 H2) as [E2 B2].
  destruct (isdigit_digit_char y3 H3) as [E3 B3].
  destruct (isdigit_digit_char y4 H4) as [E4 B4].
  destruct (isdigit_digit_char m1 Hm1) as [E5 B5].
  destruct (isdigit_digit_char m2 Hm2) as [E6 B6].
  destruct (isdigit_digit_char d1 Hd1) as [E7 B7].
  destruct (isdigit_digit_char d2 Hd2) as [E8 B8].
  unfold iso_date.
  rewrite four_digits_value by assumption.
  rewrite !two_digits_value by assumption.
  rewrite E1, E2, E3, E4, E5, E6, E7, E8. reflexivity.
Qed.

(** [validate_date] returns its argument on the texts of calendar dates and
    raises one of its two errors on every other string. *)
Lemma validate_date_cases (s : string) :
  (real_date_string s /\ Transaction.validate_date s = Ok s) \/
  (~ real_date_string s /\
   exists e, InvalidDate e /\ Transaction.validate_date s = Err e).
Proof.
  unfold Transaction.validate_date.
  destruct (Regex.re_match Transaction.pattern s) eqn:Hp; cbn [negb].
  - apply pattern_inv in Hp
      as (y1 & y2 & y3 & y4 & m1 & m2 & d1 & d2 & tail & -> & (H1 & H2 & H3 & H4)
          & Hm & Hd & Ht).
    rewrite strptime_shape by assumption.
    destruct Ht as [-> | ->].
    + pose proof (date_text_iso y1 y2 y3 y4 m1 m2 d1 d2 H1 H2 H3 H4 Hm Hd) as Hiso.
      destruct (check_date_fields_inv
                  (Transaction.int (String y1 (String y2 (String y3 (String y4 EmptyString)))))
                  (Transaction.int (String m1 (String m2 EmptyString)))
                  (Transaction.int (String d1 (String d2 EmptyString))))
        as [[Hcal ->] | [Hcal [msg ->]]].
      * left. split; [ | reflexivity]. eexists _, _, _. split; eassumption.
      * right. split; [ | exists (ValueError "Invalid date"); split;
                            [right; reflexivity | reflexivity]].
        intros (y & m & d & Hreal & Heq). apply Hcal.
        destruct (iso_date_shape y m d Hreal)
          as (c1 & c2 & c3 & c4 & n1 & n2 & e1 & e2 & Htext & _ & _ & _
              & Hy & Hmm & Hdd).
        rewrite Htext in Heq. unfold date_text in Heq.
        injection Heq as -> -> -> -> -> -> -> ->.
        rewrite Hy, Hmm, Hdd. exact Hreal.
    + right. split; [ | exists (ValueError "Invalid date"); split;
                          [right; reflexivity | reflexivity]].
      intros (y & m & d & Hreal & Heq).
      destruct (iso_date_shape y m d Hreal)
        as (c1 & c2 & c3 & c4 & n1 & n2 & e1 & e2 & Htext & _).
      rewrite Htext in Heq. unfold date_text in Heq. discriminate Heq.
  - right. split; [ | exists (ValueError "Invalid date format"); split;
                        [left; reflexivity | reflexivity]].
    intros (y & m & d & Hreal & ->).
    destruct (iso_date_shape y m d Hreal)
      as (c1 & c2 & c3 & c4 & n1 & n2 & e1 & e2 & Htext & (H1 & H2 & H3 & H4)
          & Hm & Hd & _).
    rewrite Htext in Hp. rewrite pattern_shape in Hp by auto. discriminate Hp.
Qed.

(** ** Trimming and lower-casing *)

Lemma isspace_lower_char (c : ascii) :
  PyStr.isspace (PyStr.lower_char c) = PyStr.isspace c.
Proof. each_char c; reflexivity. Qed.


Lemma lstrip_lower (s : string) :
  PyStr.lstrip (PyStr.lower s) = PyStr.lower (PyStr.lstrip s).
Proof.
  induction s as [ | c s IH]; simpl; [reflexivity | ].
  rewrite isspace_lower_char. destruct (PyStr.isspace c); [exact IH | reflexivity].
Qed.

Lemma rstrip_lower (s : string) :
  PyStr.rstrip (PyStr.lower s) = PyStr.lower (PyStr.rstrip s).
Proof.
  induction s as [ | c s IH]; simpl; [reflexivity | ].
  rewrite IH, isspace_lower_char.
  destruct (PyStr.rstrip s); simpl; [ | reflexivity].
  destruct (PyStr.isspace c); reflexivity.
Qed.

(** Trimming and lower-casing commute. *)
Lemma strip_lower (s : string) :
  PyStr.strip (PyStr.lower s) = PyStr.lower (PyStr.strip s).
Proof. unfold PyStr.strip. rewrite lstrip_lower, rstrip_lower. reflexivity. Qed.


Lemma lstrip_no_leading_space (s : string) : no_leading_space (PyStr.lstrip s).
Proof.
  induction s as [ | c s IH]; simpl; [exact I | ].
  destruct (PyStr.isspace c) eqn:Hc; [exact IH | exact Hc].
Qed.

Lemma rstrip_no_leading_space (s : string) :
  no_leading_space s -> no_leading_space (PyStr.rstrip s).
Proof.
  destruct s as [ | c s]; simpl; [auto | ]. intros Hc.
  destruct (PyStr.rstrip s); [rewrite Hc | ]; exact Hc.
Qed.




(** ** Amounts *)

Lemma positive_not_le_zero (f : float) : ltb pzero f = true -> leb f pzero = false.
Proof. destruct f as [s | [ | ] | | [ | ] m e]; cbv; congruence. Qed.

Lemma validate_amount_eval (amount : pyobj) :
  Transaction.validate_amount amount =
    match py_float amount with
    | Ok f => if leb f pzero then Err InvalidAmount else Ok (round2 f)
    | Err (ValueError _) | Err (TypeError _) => Err InvalidAmount
    | Err e => Err e
    end.
Proof.
  unfold Transaction.validate_amount, bind.
  destruct (py_float amount) as [f | [msg | msg | msg | msg]]; try reflexivity.
  change (of_Z 0) with pzero. destruct (leb f pzero); reflexivity.
Qed.

Lemma init_eval (cls : Transaction.class_name) (date : string) (amount : pyobj)
    (category description : string) :
  Transaction.init cls date amount category description =
    match Transaction.validate_date date with
    | Err e => Err e
    | Ok d =>
        match Transaction.validate_amount amount with
        | Err e => Err e
        | Ok a =>
            Ok {| Transaction.date := d;
                  Transaction.amount := a;
                  Transaction.category := normalize category;
                  Transaction.description := PyStr.strip description;
                  Transaction.transaction_id := None;
                  Transaction.class := cls |}
        end
    end.
Proof.
  unfold Transaction.init, bind.
  destruct (Transaction.validate_date date); [ | reflexivity].
  destruct (Transaction.validate_amount amount); reflexivity.
Qed.


(** What holds of the stored amount: it is never negative. *)
Lemma init_amount_not_negative (cls : Transaction.class_name) (date : string)
    (amount : pyobj) (category description : string) (t : Transaction.Transaction) :
  Transaction.init cls date amount category description = Ok t ->
  ltb (Transaction.amount t) pzero = false.
Proof.
  rewrite init_eval, validate_amount_eval.
  destruct (Transaction.validate_date date) as [d | e]; [ | discriminate].
  destruct (py_float amount) as [f | [msg | msg | msg | msg]]; try discriminate.
  destruct (leb f pzero) eqn:Hf; [discriminate | ].
  intros [= <-]. cbn. apply round2_not_negative, Hf.
Qed.

(** C6, the failing input: the amount 0.001 passes the positivity check and
    is stored as [round(0.001, 2)], which is 0.0. *)
Theorem expense_stores_zero_amount :
  exists t,
    Transaction.Expense "2024-11-02" (PyStr "0.001") "Food" "lunch" = Ok t /\
    Transaction.amount t = pzero /\
    ltb pzero (Transaction.amount t) = false.
Proof. eexists. split; [vm_compute; reflexivity | split; reflexivity]. Qed.

(** The same check lets NaN through. *)
Lemma expense_stores_nan_amount :
  exists t,
    Transaction.Expense "2024-11-02" (PyStr "nan") "Food" "lunch" = Ok t /\
    Transaction.amount t = S754_nan /\
    ltb pzero (Transaction.amount t) = false.
Proof. eexists. split; [vm_compute; reflexivity | split; reflexivity]. Qed.






(** The three examples of the specification. *)
Lemma validate_date_examples :
  Transaction.validate_date "2024-02-30" = Err (ValueError "Invalid date") /\
  Transaction.validate_date "2024-13-01" = Err (ValueError "Invalid date format") /\
  Transaction.validate_date "11/01/2024" = Err (ValueError "Invalid date format").
Proof. repeat split; vm_compute; reflexivity. Qed.





(** * Further properties of the budget *)

(** ** Normalisation is idempotent *)

Lemma lower_char_idempotent (c : ascii) :
  PyStr.lower_char (PyStr.lower_char c) = PyStr.lower_char c.
Proof. each_char c; reflexivity. Qed.

Lemma lower_idempotent (s : string) : PyStr.lower (PyStr.lower s) = PyStr.lower s.
Proof.
  induction s as [ | c s IH]; simpl; [reflexivity | ].
  rewrite lower_char_idempotent, IH. reflexivity.
Qed.

Lemma lstrip_fixed (s : string) : no_leading_space s -> PyStr.lstrip s = s.
Proof. destruct s as [ | c s]; simpl; [reflexivity | ]. intros ->. reflexivity. Qed.

Lemma rstrip_idempotent (s : string) :
  PyStr.rstrip (PyStr.rstrip s) = PyStr.rstrip s.
Proof.
  induction s as [ | c s IH]; simpl; [reflexivity | ].
  destruct (PyStr.rstrip s) as [ | a r] eqn:Hr.
  - destruct (PyStr.isspace c) eqn:Hc; simpl; [reflexivity | ].
    rewrite Hc. reflexivity.
  - cbn [PyStr.rstrip]. cbn [PyStr.rstrip] in IH.
    rewrite IH. reflexivity.
Qed.

Lemma strip_idempotent (s : string) : PyStr.strip (PyStr.strip s) = PyStr.strip s.
Proof.
  unfold PyStr.strip.
  rewrite (lstrip_fixed (PyStr.rstrip (PyStr.lstrip s)))
    by apply rstrip_no_leading_space, lstrip_no_leading_space.
  apply rstrip_idempotent.
Qed.

Lemma normalize_idempotent (c : string) : normalize (normalize c) = normalize c.
Proof.
  unfold normalize.
  rewrite (strip_lower (PyStr.strip c)), strip_idempotent, lower_idempotent.
  reflexivity.
Qed.

(** ** [set_limit] and [add_expense], composed *)

Lemma sub_zero_r (x : float) : sub x pzero = x.
Proof. destruct x as [[ | ] | [ | ] | | s m e]; reflexivity. Qed.

Lemma set_limit_Return_inv (self self' : Budget.Budget) (category : string)
    (limit : pyobj) :
  Budget.set_limit category limit self = Budget.Return tt self' ->
  exists f,
    numeric limit f /\ leb f pzero = false /\
    self' = {| Budget.limits := <[normalize category := round2 f]> (Budget.limits self);
               Budget.spent :=
                 match Budget.spent self !! normalize category with
                 | Some _ => Budget.spent self
                 | None => <[normalize category := pzero]> (Budget.spent self)
                 end |}.
Proof.
  rewrite set_limit_eval. unfold numeric.
  destruct (py_float limit) as [f | [msg | msg | msg | msg]]; try discriminate.
  destruct (leb f pzero) eqn:Hf; [discriminate | ].
  intros [= <-]. eauto.
Qed.

Lemma add_expense_Return_inv (self self' : Budget.Budget) (category : string)
    (amount : pyobj) :
  Budget.add_expense category amount self = Budget.Return tt self' ->
  exists f,
    numeric amount f /\
    self' = {| Budget.limits := Budget.limits self;
               Budget.spent :=
                 <[normalize category :=
                     add (default pzero (Budget.spent self !! normalize category)) f]>
                   (Budget.spent self) |}.
Proof.
  rewrite add_expense_eval. unfold numeric.
  destruct (py_float amount) as [f | e]; [ | discriminate].
  intros [= <-]. eauto.
Qed.

(** X1. After a successful [set_limit], [get_remaining] for that category
    returns the stored limit minus what had been spent before; in a category
    without earlier spending it returns exactly the stored limit. *)
Theorem set_limit_then_get_remaining (self self' : Budget.Budget) (c : string)
    (limit : pyobj) :
  Budget.set_limit c limit self = Budget.Return tt self' ->
  exists f,
    numeric limit f /\
    Budget.get_remaining c self'
    = Budget.Return
        (Some (sub (round2 f) (default pzero (Budget.spent self !! normalize c))))
        self' /\
    (Budget.spent self !! normalize c = None ->
     Budget.get_remaining c self' = Budget.Return (Some (round2 f)) self').
Proof.
  intros H. apply set_limit_Return_inv in H as (f & Hf & _ & ->).
  exists f. split; [exact Hf | ].
  assert (Hrem : forall s0,
             Budget.get_remaining c
               {| Budget.limits := <[normalize c := round2 f]> (Budget.limits self);
                  Budget.spent := s0 |}
             = Budget.Return
                 (Some (sub (round2 f) (default pzero (s0 !! normalize c))))
                 {| Budget.limits := <[normalize c := round2 f]> (Budget.limits self);
                    Budget.spent := s0 |}).
  { intros s0. apply get_remaining_limited. cbn. apply lookup_insert_eq. }
  destruct (Budget.spent self !! normalize c) as [v | ] eqn:Hs.
  - rewrite Hrem, Hs. split; [reflexivity | discriminate].
  - rewrite Hrem, lookup_insert_eq. cbn. rewrite sub_zero_r. auto.
Qed.

Lemma set_limit_then_get_remaining_witness :
  exists f,
    numeric (PyInt 100) f /\
    Budget.get_remaining "food"
      {| Budget.limits := {[ "food" := of_Z 100 ]};
         Budget.spent := {[ "food" := pzero ]} |}
    = Budget.Return
        (Some (sub (round2 f) (default pzero (Budget.spent Budget.init !! normalize "food"))))
        {| Budget.limits := {[ "food" := of_Z 100 ]};
           Budget.spent := {[ "food" := pzero ]} |} /\
    (Budget.spent Budget.init !! normalize "food" = None ->
     Budget.get_remaining "food"
       {| Budget.limits := {[ "food" := of_Z 100 ]};
          Budget.spent := {[ "food" := pzero ]} |}
     = Budget.Return (Some (round2 f))
         {| Budget.limits := {[ "food" := of_Z 100 ]};
            Budget.spent := {[ "food" := pzero ]} |}).
Proof.
  apply (set_limit_then_get_remaining Budget.init).
  vm_compute. reflexivity.
Defined.

(** X2. A successful [set_limit] touches only its own category: every other
    limit and every other spent total stay as they were, and the spent total
    of the category itself is kept (0.0 when there was none), never reset. *)
Theorem set_limit_frame (self self' : Budget.Budget) (c : string) (limit : pyobj) :
  Budget.set_limit c limit self = Budget.Return tt self' ->
  Budget.spent self' !! normalize c
  = Some (default pzero (Budget.spent self !! normalize c)) /\
  forall k, k <> normalize c ->
    Budget.limits self' !! k = Budget.limits self !! k /\
    Budget.spent self' !! k = Budget.spent self !! k.
Proof.
  intros H. apply set_limit_Return_inv in H as (f & _ & _ & ->). cbn.
  destruct (Budget.spent self !! normalize c) as [v | ] eqn:Hs.
  - split; [exact Hs | ]. intros k Hk.
    rewrite lookup_insert_ne by congruence. auto.
  - split; [apply lookup_insert_eq | ]. intros k Hk.
    rewrite !lookup_insert_ne by congruence. auto.
Qed.

Lemma set_limit_frame_witness :
  Budget.spent food_budget !! normalize " Food "
  = Some (default pzero (Budget.spent food_budget !! normalize " Food ")) /\
  forall k, k <> normalize " Food " ->
    Budget.limits
      {| Budget.limits := {[ "food" := of_Z 250 ]};
         Budget.spent := {[ "food" := of_Z 60 ]} |} !! k
    = Budget.limits food_budget !! k /\
    Budget.spent food_budget !! k = Budget.spent food_budget !! k.
Proof.
  apply (set_limit_frame food_budget
           {| Budget.limits := {[ "food" := of_Z 250 ]};
              Budget.spent := {[ "food" := of_Z 60 ]} |} " Food " (PyStr "250")).
  vm_compute. reflexivity.
Defined.

(** X3. Setting a limit twice for the same category is setting the second
    limit alone: no trace of the first one is kept. *)
Theorem set_limit_overwrites (self s1 s2 : Budget.Budget) (c1 c2 : string)
    (l1 l2 : pyobj) :
  normalize c1 = normalize c2 ->
  Budget.set_limit c1 l1 self = Budget.Return tt s1 ->
  Budget.set_limit c2 l2 s1 = Budget.Return tt s2 ->
  Budget.set_limit c2 l2 self = Budget.Return tt s2.
Proof.
  intros Hc H1 H2.
  apply set_limit_Return_inv in H1 as (f1 & _ & _ & ->).
  apply set_limit_Return_inv in H2 as (f2 & Hf2 & Hpos2 & ->).
  rewrite set_limit_eval, Hf2, Hpos2. cbn. rewrite Hc.
  f_equal. f_equal.
  - symmetry. apply insert_insert_eq.
  - destruct (Budget.spent self !! normalize c2) as [v | ] eqn:Hs.
    + rewrite Hs. reflexivity.
    + rewrite lookup_insert_eq. reflexivity.
Qed.

Lemma set_limit_overwrites_witness :
  Budget.set_limit "food" (PyInt 250) Budget.init
  = Budget.Return tt
      {| Budget.limits := {[ "food" := of_Z 250 ]};
         Budget.spent := {[ "food" := pzero ]} |}.
Proof.
  apply (set_limit_overwrites Budget.init
           {| Budget.limits := {[ "food" := of_Z 100 ]};
              Budget.spent := {[ "food" := pzero ]} |}
           _ "FOOD" "food" (PyInt 100) (PyInt 250)).
  - reflexivity.
  - vm_compute. reflexivity.
  - vm_compute. reflexivity.
Defined.

(** X4. [add_expense] accumulates: after two successful calls for the same
    category its spent total is the earlier total (0.0 when there was none)
    plus the first amount plus the second, added in that order as floats; the
    limits and the other spent totals are untouched. *)
Theorem add_expense_twice (self s1 s2 : Budget.Budget) (c1 c2 : string)
    (a b : pyobj) :
  normalize c1 = normalize c2 ->
  Budget.add_expense c1 a self = Budget.Return tt s1 ->
  Budget.add_expense c2 b s1 = Budget.Return tt s2 ->
  exists fa fb,
    numeric a fa /\ numeric b fb /\
    Budget.spent s2 !! normalize c1
    = Some (add (add (default pzero (Budget.spent self !! normalize c1)) fa) fb) /\
    Budget.limits s2 = Budget.limits self /\
    forall k, k <> normalize c1 -> Budget.spent s2 !! k = Budget.spent self !! k.
Proof.
  intros Hc H1 H2.
  apply add_expense_Return_inv in H1 as (fa & Hfa & ->).
  apply add_expense_Return_inv in H2 as (fb & Hfb & ->).
  exists fa, fb. cbn. rewrite <- Hc.
  repeat split; try assumption.
  - rewrite !lookup_insert_eq. reflexivity.
  - intros k Hk. rewrite !lookup_insert_ne by congruence. reflexivity.
Qed.

Lemma add_expense_twice_witness :
  exists fa fb,
    numeric (PyInt 60) fa /\ numeric (PyStr "50") fb /\
    Budget.spent
      {| Budget.limits := ∅; Budget.spent := {[ "food" := of_Z 110 ]} |}
      !! normalize "food"
    = Some (add (add (default pzero (Budget.spent Budget.init !! normalize "food")) fa) fb) /\
    Budget.limits
      {| Budget.limits := ∅; Budget.spent := {[ "food" := of_Z 110 ]} |}
    = Budget.limits Budget.init /\
    forall k, k <> normalize "food" ->
      Budget.spent
        {| Budget.limits := ∅; Budget.spent := {[ "food" := of_Z 110 ]} |} !! k
      = Budget.spent Budget.init !! k.
Proof.
  apply (add_expense_twice Budget.init
           {| Budget.limits := ∅; Budget.spent := {[ "food" := of_Z 60 ]} |}
           _ "food" "Food " (PyInt 60) (PyStr "50")).
  - reflexivity.
  - vm_compute. reflexivity.
  - vm_compute. reflexivity.
Defined.

Lemma run_call_Return (op : call) (self self' : Budget.Budget) :
  run_call op self = Budget.Return tt self' <->
  exists f, call_accepts op f /\ self' = call_effect op f self.
Proof.
  destruct op as [c limit | c amount]; cbn [run_call call_accepts call_effect].
  - split.
    + intros H. apply set_limit_Return_inv in H as (f & Hf & Hpos & ->). eauto.
    + intros (f & [Hf Hpos] & ->). rewrite set_limit_eval, Hf, Hpos. reflexivity.
  - split.
    + intros H. apply add_expense_Return_inv in H as (f & Hf & ->). eauto.
    + intros (f & Hf & ->). rewrite add_expense_eval, Hf. reflexivity.
Qed.

Lemma call_effect_commute (op1 op2 : call) (f1 f2 : float) (self : Budget.Budget) :
  call_key op1 <> call_key op2 ->
  call_effect op2 f2 (call_effect op1 f1 self)
  = call_effect op1 f1 (call_effect op2 f2 self).
Proof.
  intros Hk.
  destruct op1 as [c1 x1 | c1 x1], op2 as [c2 x2 | c2 x2];
    cbn [call_key] in Hk; cbn [call_effect Budget.limits Budget.spent].
  - f_equal; [apply insert_insert_ne; congruence | ].
    destruct (Budget.spent self !! normalize c1) as [v1 | ] eqn:H1,
             (Budget.spent self !! normalize c2) as [v2 | ] eqn:H2;
      rewrite ?lookup_insert_ne by congruence; rewrite ?H1, ?H2; try reflexivity.
    apply insert_insert_ne. congruence.
  - f_equal.
    destruct (Budget.spent self !! normalize c1) as [v1 | ] eqn:H1;
      rewrite ?lookup_insert_ne by congruence; rewrite ?H1; try reflexivity.
    apply insert_insert_ne. congruence.
  - f_equal.
    destruct (Budget.spent self !! normalize c2) as [v2 | ] eqn:H2;
      rewrite ?lookup_insert_ne by congruence; rewrite ?H2; try reflexivity.
    apply insert_insert_ne. congruence.
  - f_equal. rewrite !lookup_insert_ne by congruence.
    apply insert_insert_ne. congruence.
Qed.

(** X5. Successful calls of [set_limit] and [add_expense] on different
    categories commute: made in the other order, both succeed again and the
    budget ends in the same state. *)
Theorem calls_on_different_categories_commute (op1 op2 : call)
    (self s1 s12 : Budget.Budget) :
  call_key op1 <> call_key op2 ->
  run_call op1 self = Budget.Return tt s1 ->
  run_call op2 s1 = Budget.Return tt s12 ->
  exists s2,
    run_call op2 self = Budget.Return tt s2 /\
    run_call op1 s2 = Budget.Return tt s12.
Proof.
  intros Hk H1 H2.
  apply run_call_Return in H1 as (f1 & Ha1 & ->).
  apply run_call_Return in H2 as (f2 & Ha2 & ->).
  exists (call_effect op2 f2 self). split.
  - apply run_call_Return. eauto.
  - apply run_call_Return. exists f1. split; [exact Ha1 | ].
    apply call_effect_commute. exact Hk.
Qed.

Lemma calls_on_different_categories_commute_witness :
  exists s2,
    run_call (AddExpense "rent" (PyInt 900)) Budget.init = Budget.Return tt s2 /\
    run_call (SetLimit "Food" (PyStr "100")) s2
    = Budget.Return tt
        {| Budget.limits := {[ "food" := of_Z 100 ]};
           Budget.spent := <[ "rent" := of_Z 900 ]> {[ "food" := pzero ]} |}.
Proof.
  apply (calls_on_different_categories_commute
           (SetLimit "Food" (PyStr "100")) (AddExpense "rent" (PyInt 900))
           Budget.init
           {| Budget.limits := {[ "food" := of_Z 100 ]};
              Budget.spent := {[ "food" := pzero ]} |}).
  - vm_compute. discriminate.
  - vm_compute. reflexivity.
  - vm_compute. reflexivity.
Defined.

(** ** What every budget built through the two mutators satisfies *)

(** X6. In a budget built from the empty one by successful [set_limit] and
    [add_expense] calls, every key of [limits] and of [spent] is a normalised
    category (trimmed and lower-case), and every category with a limit has a
    spent total. *)
Theorem reachable_keys (allowed : pyobj -> Prop) (self : Budget.Budget) :
  Budget.reachable_with allowed self ->
  forall k,
    (is_Some (Budget.limits self !! k) ->
     normalize k = k /\ is_Some (Budget.spent self !! k)) /\
    (is_Some (Budget.spent self !! k) -> normalize k = k).
Proof.
  induction 1 as [ | self category limit self' Hreach IH Hcall
                   | self category amount self' Hreach IH Hallowed Hcall];
    intros k.
  - cbn. rewrite lookup_empty. split; intros [v Hv]; discriminate Hv.
  - apply set_limit_Return_inv in Hcall as (f & _ & _ & ->). cbn.
    destruct (decide (normalize category = k)) as [<- | Hne].
    + split; intros _; [split | ]; try apply normalize_idempotent.
      destruct (Budget.spent self !! normalize category) eqn:Hs;
        [rewrite Hs | rewrite lookup_insert_eq]; eauto.
    + rewrite lookup_insert_ne by exact Hne.
      destruct (Budget.spent self !! normalize category) eqn:Hs;
        rewrite ?lookup_insert_ne by exact Hne; apply IH.
  - apply add_expense_Return_inv in Hcall as (f & _ & ->). cbn.
    destruct (decide (normalize category = k)) as [<- | Hne].
    + rewrite lookup_insert_eq. split.
      * intros Hl. split; [exact (proj1 (proj1 (IH _) Hl)) | eauto].
      * intros _. apply normalize_idempotent.
    + rewrite lookup_insert_ne by exact Hne. apply IH.
Qed.

Lemma reachable_keys_witness :
  normalize "food" = "food" /\ is_Some (Budget.spent food_budget !! "food").
Proof.
  apply (reachable_keys nonneg_amount food_budget food_budget_reachable "food").
  exists (of_Z 100). reflexivity.
Defined.

(** Every category with a limit has a spent total. *)
Lemma reachable_limit_has_spent (allowed : pyobj -> Prop) (self : Budget.Budget) :
  Budget.reachable_with allowed self ->
  forall k, is_Some (Budget.limits self !! k) -> is_Some (Budget.spent self !! k).
Proof.
  induction 1 as [ | self category limit self' Hreach IH Hcall
                   | self category amount self' Hreach IH Hallowed Hcall];
    intros k.
  - cbn. rewrite lookup_empty. intros [v Hv]. discriminate Hv.
  - apply set_limit_Return_inv in Hcall as (f & _ & _ & ->). cbn.
    destruct (decide (normalize category = k)) as [<- | Hne].
    + intros _.
      destruct (Budget.spent self !! normalize category) eqn:Hs;
        [rewrite Hs | rewrite lookup_insert_eq]; eauto.
    + rewrite lookup_insert_ne by exact Hne.
      destruct (Budget.spent self !! normalize category) eqn:Hs;
        rewrite ?lookup_insert_ne by exact Hne; apply IH.
  - apply add_expense_Return_inv in Hcall as (f & _ & ->). cbn.
    destruct (decide (normalize category = k)) as [<- | Hne].
    + rewrite lookup_insert_eq. eauto.
    + rewrite lookup_insert_ne by exact Hne. apply IH.
Qed.

(** X7. In such a budget [get_all_categories] returns exactly the keys of
    [spent]: the categories with a limit add nothing to them. *)
Theorem get_all_categories_reachable (allowed : pyobj -> Prop)
    (self : Budget.Budget) :
  Budget.reachable_with allowed self ->
  Budget.get_all_categories self = Budget.Return (dom (Budget.spent self)) self.
Proof.
  intros Hreach. unfold Budget.get_all_categories. f_equal.
  apply set_eq. intros k. rewrite elem_of_union, !elem_of_dom.
  split; [ | auto].
  intros [Hl | Hs]; [ | exact Hs].
  exact (reachable_limit_has_spent allowed self Hreach k Hl).
Qed.

Lemma get_all_categories_reachable_witness :
  Budget.get_all_categories food_budget
  = Budget.Return (dom (Budget.spent food_budget)) food_budget.
Proof.
  exact (get_all_categories_reachable nonneg_amount food_budget food_budget_reachable).
Defined.

(** ** The report and the summary *)

Lemma map_fmap {A B} (f : A -> B) (l : list A) : map f l = f <$> l.
Proof. induction l as [ | x l IH]; simpl; [reflexivity | rewrite IH; reflexivity]. Qed.

Lemma elem_of_sorted_limit_keys (self : Budget.Budget) (k : string) :
  k ∈ sorted_limit_keys self <-> is_Some (Budget.limits self !! k).
Proof.
  unfold sorted_limit_keys. rewrite merge_sort_Permutation, map_fmap.
  rewrite list_elem_of_fmap. split.
  - intros ([k' v] & -> & Hin). apply elem_of_map_to_list in Hin. eauto.
  - intros [v Hv]. exists (k, v). split; [reflexivity | ].
    apply elem_of_map_to_list. exact Hv.
Qed.

Lemma length_sorted_limit_keys (self : Budget.Budget) :
  length (sorted_limit_keys self) = size (Budget.limits self).
Proof.
  unfold sorted_limit_keys.
  rewrite (Permutation_length (merge_sort_Permutation _ _)).
  rewrite length_map. apply length_map_to_list.
Qed.

Lemma report_loop_normal (self : Budget.Budget) (categories : list string) :
  (forall k, k ∈ categories ->
             normalize k = k /\ is_Some (Budget.limits self !! k)) ->
  forall report, exists statuses,
    Budget.report_loop categories report self
    = Budget.Return (report ++ statuses)%list self /\
    map Budget.status_category statuses = categories /\
    Forall (fun st =>
              Budget.get_status (Budget.status_category st) self
              = Budget.Return (Some st) self) statuses.
Proof.
  induction categories as [ | k rest IH]; intros Hall report.
  - exists []. cbn. rewrite app_nil_r. auto.
  - destruct (Hall k) as [Hk [limit Hl]]; [left | ].
    rewrite <- Hk in Hl.
    pose proof (get_status_limited self k limit Hl) as Hst. cbn zeta in Hst.
    match type of Hst with
    | _ = Budget.Return (Some ?s) _ => remember s as st eqn:Est
    end.
    assert (Hcat : Budget.status_category st = k) by (subst st; exact Hk).
    destruct (IH (fun k' Hin => Hall k' (list_elem_of_further _ _ _ Hin))
                (report ++ [st])%list) as (statuses & Hloop & Hcats & Hall').
    exists (st :: statuses). cbn [Budget.report_loop]. unfold Budget.mbind.
    rewrite Hst, Hloop, <- app_assoc. cbn [app].
    split; [reflexivity | ]. split.
    + cbn [map]. rewrite Hcats, Hcat. reflexivity.
    + constructor; [ | exact Hall']. rewrite Hcat. exact Hst.
Qed.

(** X8. When every category that has a limit is in normal form (as in every
    budget built through [set_limit]), [get_budget_report] returns one status
    for each such category and no other, ordered by category name, each
    status being the one [get_status] gives for its category. *)
Theorem get_budget_report_normal (self : Budget.Budget) :
  limit_keys_normal self ->
  exists report,
    Budget.get_budget_report self = Budget.Return report self /\
    map Budget.status_category report = sorted_limit_keys self /\
    Sorted String.le (map Budget.status_category report) /\
    (forall k, k ∈ map Budget.status_category report
               <-> is_Some (Budget.limits self !! k)) /\
    length report = size (Budget.limits self) /\
    Forall (fun st =>
              Budget.get_status (Budget.status_category st) self
              = Budget.Return (Some st) self) report.
Proof.
  intros Hnormal.
  destruct (report_loop_normal self (sorted_limit_keys self)) with (report := @nil Budget.Status)
    as (report & Hloop & Hcats & Hall).
  { intros k Hk. apply elem_of_sorted_limit_keys in Hk. auto. }
  exists report. split; [exact Hloop | ]. split; [exact Hcats | ].
  rewrite Hcats. split; [apply Sorted_merge_sort; apply _ | ].
  split; [apply elem_of_sorted_limit_keys | ].
  split; [ | exact Hall].
  rewrite <- (length_map Budget.status_category), Hcats.
  apply length_sorted_limit_keys.
Qed.

Lemma food_budget_keys_normal : limit_keys_normal food_budget.
Proof.
  intros k [v Hv]. cbn in Hv. apply lookup_singleton_Some in Hv as [<- _]. reflexivity.
Defined.

Lemma get_budget_report_normal_witness :
  exists report,
    Budget.get_budget_report food_budget = Budget.Return report food_budget /\
    map Budget.status_category report = sorted_limit_keys food_budget /\
    Sorted String.le (map Budget.status_category report) /\
    (forall k, k ∈ map Budget.status_category report
               <-> is_Some (Budget.limits food_budget !! k)) /\
    length report = size (Budget.limits food_budget) /\
    Forall (fun st =>
              Budget.get_status (Budget.status_category st) food_budget
              = Budget.Return (Some st) food_budget) report.
Proof. exact (get_budget_report_normal food_budget food_budget_keys_normal). Defined.

Lemma row_categories_app (l1 l2 : list Budget.line) :
  row_categories (l1 ++ l2) = (row_categories l1 ++ row_categories l2)%list.
Proof. apply omap_app. Qed.

Lemma summary_loop_normal (self : Budget.Budget) (categories : list string) :
  (forall k, k ∈ categories ->
             normalize k = k /\ is_Some (Budget.limits self !! k)) ->
  forall total_limit total_spent out, exists total_limit' total_spent' rows,
    Budget.summary_loop categories total_limit total_spent out self
    = Budget.Return (total_limit', total_spent', (out ++ rows)%list) self /\
    row_categories rows = categories /\
    Forall (row_shows self) rows.
Proof.
  induction categories as [ | k rest IH]; intros Hall total_limit total_spent out.
  - exists total_limit, total_spent, []. cbn. rewrite app_nil_r. auto.
  - destruct (Hall k) as [Hk [limit Hl]]; [left | ].
    pose proof Hl as Hl'. rewrite <- Hk in Hl'.
    pose proof (get_status_limited self k limit Hl') as Hst. cbn zeta in Hst.
    rewrite Hk in Hst.
    cbn [Budget.summary_loop]. unfold Budget.mbind. rewrite Hst.
    cbn [Budget.status_limit Budget.status_spent Budget.status_remaining
         Budget.status_over_budget Budget.status_percentage].
    match goal with
    | |- context [Budget.summary_loop rest ?tl ?ts (out ++ [?row])%list self] =>
        destruct (IH (fun k' Hin => Hall k' (list_elem_of_further _ _ _ Hin))
                    tl ts (out ++ [row])%list)
          as (tl' & ts' & rows & Hloop & Hcats & Hrows);
        exists tl', ts', (row :: rows)
    end.
    rewrite Hloop, <- app_assoc. cbn [app].
    split; [reflexivity | ]. split.
    + cbn. rewrite <- Hcats. reflexivity.
    + constructor; [ | exact Hrows]. cbn. auto.
Qed.

(** X9. When every category that has a limit is in normal form,
    [print_summary] does not raise and leaves the budget as it was, and the
    rows it prints are one for each category with a limit, ordered by category
    name, each showing that category's limit, what was spent in it and the
    difference. *)
Theorem print_summary_normal (self : Budget.Budget) :
  limit_keys_normal self ->
  exists lines,
    Budget.print_summary self = Budget.Return lines self /\
    row_categories lines = sorted_limit_keys self /\
    Forall (row_shows self) lines.
Proof.
  intros Hnormal. unfold Budget.print_summary, Budget.mbind, Budget.limits_is_empty.
  destruct (bool_decide (Budget.limits self = ∅)) eqn:Hempty.
  - apply bool_decide_eq_true in Hempty.
    eexists. split; [reflexivity | ]. split.
    + unfold sorted_limit_keys. rewrite Hempty, map_to_list_empty. reflexivity.
    + repeat constructor.
  - unfold Budget.limits_keys. fold (sorted_limit_keys self).
    assert (Hkeys : forall k, k ∈ sorted_limit_keys self ->
                      normalize k = k /\ is_Some (Budget.limits self !! k)).
    { intros k Hk. apply elem_of_sorted_limit_keys in Hk. auto. }
    match goal with
    | |- context [Budget.summary_loop _ ?tl0 ?ts0 ?out0 self] =>
        destruct (summary_loop_normal self (sorted_limit_keys self) Hkeys tl0 ts0 out0)
          as (tl' & ts' & rows & Hloop & Hcats & Hrows)
    end.
    rewrite Hloop. eexists. split; [reflexivity | ]. split.
    + rewrite !row_categories_app. cbn. rewrite app_nil_r. exact Hcats.
    + repeat (apply Forall_app; split); try exact Hrows; repeat constructor.
Qed.

Lemma print_summary_normal_witness :
  exists lines,
    Budget.print_summary food_budget = Budget.Return lines food_budget /\
    row_categories lines = sorted_limit_keys food_budget /\
    Forall (row_shows food_budget) lines.
Proof. exact (print_summary_normal food_budget food_budget_keys_normal). Defined.

Lemma summary_loop_missing (self : Budget.Budget) (categories : list string) :
  (exists k, k ∈ categories /\ Budget.limits self !! normalize k = None) ->
  forall total_limit total_spent out, exists msg,
    Budget.summary_loop categories total_limit total_spent out self
    = Budget.Raise (TypeError msg) self.
Proof.
  induction categories as [ | k0 rest IH];
    intros (k & Hin & Hnone) total_limit total_spent out.
  - apply elem_of_nil in Hin. contradiction.
  - cbn [Budget.summary_loop]. unfold Budget.mbind.
    destruct (Budget.limits self !! normalize k0) as [limit | ] eqn:Hl.
    + rewrite (get_status_limited self k0 limit Hl). cbn zeta.
      apply elem_of_cons in Hin as [-> | Hin]; [congruence | ].
      apply IH. eauto.
    + rewrite (get_status_unlimited self k0 Hl). eexists. reflexivity.
Qed.

(** X10. In any budget that holds a limit under a key whose normal form has
    no limit (a key with an upper-case letter or outer blanks, as [from_dict]
    may load it), [print_summary] raises a [TypeError]: it subscripts the
    [None] that [get_status] returns for that key. *)
Theorem print_summary_raises (self : Budget.Budget) (k : string) :
  is_Some (Budget.limits self !! k) ->
  Budget.limits self !! normalize k = None ->
  exists msg, Budget.print_summary self = Budget.Raise (TypeError msg) self.
Proof.
  intros Hk Hnone.
  unfold Budget.print_summary, Budget.mbind, Budget.limits_is_empty.
  rewrite bool_decide_eq_false_2.
  2: { intros Hempty. rewrite Hempty, lookup_empty in Hk.
       destruct Hk as [v Hv]. discriminate Hv. }
  unfold Budget.limits_keys. fold (sorted_limit_keys self).
  assert (Hmiss : exists k, k ∈ sorted_limit_keys self
                            /\ Budget.limits self !! normalize k = None).
  { exists k. split; [apply elem_of_sorted_limit_keys; exact Hk | exact Hnone]. }
  match goal with
  | |- context [Budget.summary_loop _ ?tl0 ?ts0 ?out0 self] =>
      destruct (summary_loop_missing self (sorted_limit_keys self) Hmiss tl0 ts0 out0)
        as [msg Hloop]
  end.
  rewrite Hloop. eauto.
Qed.

(** A budget loaded with the key "Food". *)
Lemma print_summary_raises_witness :
  exists msg,
    Budget.print_summary
      {| Budget.limits := {[ "Food" := of_Z 100 ]}; Budget.spent := ∅ |}
    = Budget.Raise (TypeError msg)
        {| Budget.limits := {[ "Food" := of_Z 100 ]}; Budget.spent := ∅ |}.
Proof.
  apply (print_summary_raises
           {| Budget.limits := {[ "Food" := of_Z 100 ]}; Budget.spent := ∅ |} "Food").
  - exists (of_Z 100). reflexivity.
  - reflexivity.
Defined.

(** * Loading and saving *)

Lemma load_loop_each (items : list FileManager.json) :
  forall (ts acc : list Transaction.Transaction),
    Forall2 (fun item t => FileManager.load_item item = inl t) items ts ->
    FileManager.load_loop items acc = inl (acc ++ ts)%list.
Proof.
  induction items as [ | item rest IH]; intros ts acc H.
  - apply Forall2_nil_inv_l in H as ->. cbn. rewrite app_nil_r. reflexivity.
  - apply Forall2_cons_inv_l in H as (t & ts' & Ht & Hrest & ->).
    cbn [FileManager.load_loop]. rewrite Ht. cbn [FileManager.and_then].
    rewrite (IH ts' _ Hrest), <- app_assoc. reflexivity.
Qed.

Lemma load_loop_fails (items : list FileManager.json) :
  (exists item e, item ∈ items /\ FileManager.load_item item = inr e) ->
  forall acc, exists e, FileManager.load_loop items acc = inr e.
Proof.
  induction items as [ | item0 rest IH]; intros (item & e & Hin & Hfail) acc.
  - apply elem_of_nil in Hin. contradiction.
  - cbn [FileManager.load_loop].
    destruct (FileManager.load_item item0) as [t | e0] eqn:H0; cbn.
    + apply elem_of_cons in Hin as [-> | Hin]; [congruence | ].
      apply IH. eauto.
    + eauto.
Qed.

(** X11. [load_transactions] on a file that holds a list: when every record
    of the list gives a transaction, the result is these transactions, one for
    each record and in the order of the file. *)
Theorem load_transactions_each (items : list FileManager.json)
    (ts : list Transaction.Transaction) :
  Forall2 (fun item t => FileManager.load_item item = inl t) items ts ->
  FileManager.load_transactions (FileManager.Holds (FileManager.JArray items)) = ts.
Proof.
  intros H. cbn. rewrite (load_loop_each items ts [] H). reflexivity.
Qed.

(** X12. It is all or nothing: when a single record of the list fails (a
    missing key, a date or an amount that validation refuses, a value of the
    wrong type), the result is the empty list, whatever the other records
    are. *)
Theorem load_transactions_all_or_nothing (items : list FileManager.json)
    (item : FileManager.json) (e : FileManager.failure) :
  item ∈ items ->
  FileManager.load_item item = inr e ->
  FileManager.load_transactions (FileManager.Holds (FileManager.JArray items)) = [].
Proof.
  intros Hin Hfail. cbn.
  destruct (load_loop_fails items) with (acc := @nil Transaction.Transaction)
    as [e' ->]; [eauto | reflexivity].
Qed.

Lemma load_item_string (s : string) :
  exists e, FileManager.load_item (FileManager.JString s) = inr e.
Proof. eexists. reflexivity. Qed.

(** X13. A transactions file that is missing, unreadable, or holds anything
    but a list loads as no transactions. *)
Theorem load_transactions_not_a_list (f : FileManager.file FileManager.json) :
  (forall items, f <> FileManager.Holds (FileManager.JArray items)) ->
  FileManager.load_transactions f = [].
Proof.
  intros Hnot. destruct f as [ | | data]; try reflexivity.
  destruct data as [ | b | z | x | s | items | members]; try reflexivity.
  - cbn. destruct s as [ | c s]; reflexivity.
  - exfalso. apply (Hnot items). reflexivity.
  - cbn. destruct (FileManager.keys [] members) as [ | k ks]; reflexivity.
Qed.

Lemma load_transactions_not_a_list_witness :
  FileManager.load_transactions
    (FileManager.Holds (FileManager.JObject [("type", FileManager.JString "Income")]))
  = [].
Proof.
  apply load_transactions_not_a_list. intros items H. discriminate H.
Defined.

Lemma load_transactions_each_witness :
  FileManager.load_transactions
    (FileManager.Holds (FileManager.JArray [salary_record; salary_record]))
  = [salary; salary].
Proof.
  apply load_transactions_each.
  repeat constructor; vm_compute; reflexivity.
Defined.

Lemma load_transactions_all_or_nothing_witness :
  FileManager.load_transactions
    (FileManager.Holds (FileManager.JArray [salary_record; broken_record; salary_record]))
  = [].
Proof.
  apply (load_transactions_all_or_nothing _ broken_record
           (FileManager.Raised (KeyError "amount"))).
  - apply list_elem_of_further, list_elem_of_here.
  - vm_compute. reflexivity.
Defined.

(** ** Saving, then loading *)

Lemma built_fields (t : Transaction.Transaction) :
  built t ->
  Transaction.validate_date (Transaction.date t) = Ok (Transaction.date t) /\
  normalize (Transaction.category t) = Transaction.category t /\
  PyStr.strip (Transaction.description t) = Transaction.description t /\
  Transaction.transaction_id t = None.
Proof.
  intros (cls & date & amount & category & description & H).
  rewrite init_eval in H.
  destruct (validate_date_cases date) as [[_ Hd] | [_ [e [_ Hd]]]];
    rewrite Hd in H; [ | discriminate H].
  destruct (Transaction.validate_amount amount) as [a | e]; [ | discriminate H].
  injection H as <-.
  cbn [Transaction.date Transaction.category Transaction.description
       Transaction.transaction_id].
  repeat split; auto using normalize_idempotent, strip_idempotent.
Qed.

Lemma load_item_trans_dict (t : Transaction.Transaction) :
  built t -> revalidates t ->
  FileManager.load_item (FileManager.trans_dict t) = inl (as_saved t).
Proof.
  intros Hbuilt Hamount.
  destruct (built_fields t Hbuilt) as (Hd & Hc & Hs & Hid).
  unfold revalidates in Hamount. unfold normalize in Hc.
  unfold FileManager.load_item, FileManager.trans_dict, FileManager.type_name.
  cbn [FileManager.getitem FileManager.member FileManager.and_then String.eqb
       Ascii.eqb Bool.eqb].
  unfold FileManager.construct. cbn [FileManager.as_pyobj].
  rewrite Hd, Hamount, Hc, Hs. unfold as_saved. rewrite Hid.
  destruct (Transaction.class t); reflexivity.
Qed.

Lemma saved_records_load (ts : list Transaction.Transaction) :
  Forall (fun t => built t /\ revalidates t) ts ->
  Forall2 (fun item t => FileManager.load_item item = inl t)
          (map FileManager.trans_dict ts) (map as_saved ts).
Proof.
  intros H. induction H as [ | t ts [Hb Hr] _ IH]; cbn [map]; constructor.
  - apply load_item_trans_dict; assumption.
  - exact IH.
Qed.

Lemma saved_transactions_load (ts saved : list Transaction.Transaction) :
  Forall2 (fun item t => FileManager.load_item item = inl t)
          (map FileManager.trans_dict ts) saved ->
  FileManager.load_transactions (fst (FileManager.save_transactions ts)) = saved.
Proof.
  intros H. cbn [FileManager.save_transactions fst].
  unfold FileManager.load_transactions.
  cbn [FileManager.iterate FileManager.and_then].
  rewrite (load_loop_each _ _ [] H). reflexivity.
Qed.

(** X14. Saving and loading again gives the transactions back, in order,
    when each of them was built by a constructor and has a stored amount that
    passes validation unchanged (an amount above 0 with two decimals); an
    object of the base class comes back as an expense. *)
Theorem save_then_load_transactions (ts : list Transaction.Transaction) :
  Forall (fun t => built t /\ revalidates t) ts ->
  FileManager.load_transactions (fst (FileManager.save_transactions ts))
  = map as_saved ts.
Proof.
  intros H. apply saved_transactions_load, saved_records_load, H.
Qed.

Lemma salary_built : built salary.
Proof.
  exists Transaction.Income_, "2024-11-01", (PyInt 2000), "Salary", "Monthly paycheck".
  vm_compute. reflexivity.
Defined.

Lemma save_then_load_transactions_witness :
  FileManager.load_transactions (fst (FileManager.save_transactions [salary]))
  = map as_saved [salary].
Proof.
  apply save_then_load_transactions.
  constructor; [ | constructor].
  split; [exact salary_built | vm_compute; reflexivity].
Defined.

(** X15. One stored amount that is not above 0, such as the 0.0 left by an
    amount of 0.001, is enough to lose every transaction at the next load:
    the saved list loads as the empty list. *)
Theorem save_then_load_loses_all (ts : list Transaction.Transaction)
    (t : Transaction.Transaction) :
  t ∈ ts ->
  leb (Transaction.amount t) pzero = true ->
  FileManager.load_transactions (fst (FileManager.save_transactions ts)) = [].
Proof.
  intros Hin Hle. cbn [FileManager.save_transactions fst].
  assert (Hfail : exists e, FileManager.load_item (FileManager.trans_dict t) = inr e).
  { unfold FileManager.load_item, FileManager.trans_dict.
    cbn [FileManager.getitem FileManager.member FileManager.and_then String.eqb
         Ascii.eqb Bool.eqb].
    unfold FileManager.construct. cbn [FileManager.as_pyobj].
    destruct (Transaction.validate_date (Transaction.date t)); [ | eauto].
    rewrite validate_amount_eval. cbn [py_float]. rewrite Hle. eauto. }
  destruct Hfail as [e Hfail].
  apply list_elem_of_fmap_2 with (f := FileManager.trans_dict) in Hin.
  rewrite <- map_fmap in Hin.
  unfold FileManager.load_transactions.
  cbn [FileManager.iterate FileManager.and_then].
  destruct (load_loop_fails (map FileManager.trans_dict ts))
    with (acc := @nil Transaction.Transaction) as [e' ->]; [eauto | reflexivity].
Qed.


Lemma save_then_load_loses_all_witness :
  FileManager.load_transactions
    (fst (FileManager.save_transactions [salary; free_lunch; salary]))
  = [].
Proof.
  apply (save_then_load_loses_all _ free_lunch).
  - apply list_elem_of_further, list_elem_of_here.
  - reflexivity.
Defined.

(** The budget file gives back the budget that was saved; a missing or
    unreadable one gives the empty budget. *)
Lemma save_then_load_budget (b : Budget.Budget) :
  FileManager.load_budget (fst (FileManager.save_budget b)) = b /\
  FileManager.load_budget FileManager.Missing = Budget.init /\
  FileManager.load_budget FileManager.Unreadable = Budget.init.
Proof. destruct b as [limits spent]. repeat split. Qed.

(** * The application *)

(** ** [load_data] *)

Lemma expense_amounts_cons (k : string) (t : Transaction.Transaction)
    (rest : list Transaction.Transaction) :
  (FinanceTracker.is_expense t = true /\ Transaction.category t = k /\
   expense_amounts k (t :: rest) = Transaction.amount t :: expense_amounts k rest) \/
  ((FinanceTracker.is_expense t = false \/ Transaction.category t <> k) /\
   expense_amounts k (t :: rest) = expense_amounts k rest).
Proof.
  cbn [expense_amounts].
  destruct (FinanceTracker.is_expense t) eqn:He; cbn [andb]; [ | auto].
  destruct (String.eqb (Transaction.category t) k) eqn:Hk.
  - apply String.eqb_eq in Hk. auto.
  - apply String.eqb_neq in Hk. auto.
Qed.

Lemma fold_seed_spent (k : string) (ts : list Transaction.Transaction) :
  forall b,
    Budget.limits (fold_left FinanceTracker.seed_spent ts b) = Budget.limits b /\
    Budget.spent (fold_left FinanceTracker.seed_spent ts b) !! k
    = match expense_amounts k ts with
      | [] => Budget.spent b !! k
      | _ => Some (default pzero (Budget.spent b !! k))
      end.
Proof.
  induction ts as [ | t rest IH]; intros b; [auto | ].
  cbn [fold_left].
  destruct (IH (FinanceTracker.seed_spent b t)) as [IHl IHs].
  rewrite IHl, IHs. clear IH IHl IHs.
  unfold FinanceTracker.seed_spent.
  destruct (expense_amounts_cons k t rest) as [(He & Hk & ->) | ([He | Hk] & ->)].
  - rewrite He. subst k.
    destruct (Budget.spent b !! Transaction.category t) as [v | ] eqn:Hv.
    + rewrite Hv. split; [reflexivity | ].
      destruct (expense_amounts _ rest); reflexivity.
    + cbn. rewrite lookup_insert_eq. split; [reflexivity | ].
      destruct (expense_amounts _ rest); reflexivity.
  - rewrite He. auto.
  - destruct (FinanceTracker.is_expense t); [ | auto].
    destruct (Budget.spent b !! Transaction.category t) as [v | ] eqn:Hv; [auto | ].
    cbn. rewrite lookup_insert_ne by exact Hk. auto.
Qed.

Lemma fold_add_spent (k : string) (ts : list Transaction.Transaction) :
  forall b,
    Budget.limits (fold_left FinanceTracker.add_spent ts b) = Budget.limits b /\
    Budget.spent (fold_left FinanceTracker.add_spent ts b) !! k
    = match expense_amounts k ts with
      | [] => Budget.spent b !! k
      | amounts => Some (fold_left add amounts (default pzero (Budget.spent b !! k)))
      end.
Proof.
  induction ts as [ | t rest IH]; intros b; [auto | ].
  cbn [fold_left].
  destruct (IH (FinanceTracker.add_spent b t)) as [IHl IHs].
  rewrite IHl, IHs. clear IH IHl IHs.
  unfold FinanceTracker.add_spent.
  destruct (expense_amounts_cons k t rest) as [(He & Hk & ->) | ([He | Hk] & ->)].
  - rewrite He. subst k. cbn. rewrite lookup_insert_eq. split; [reflexivity | ].
    destruct (expense_amounts _ rest); reflexivity.
  - rewrite He. auto.
  - destruct (FinanceTracker.is_expense t); [ | auto].
    cbn. rewrite lookup_insert_ne by exact Hk. auto.
Qed.

(** The two loops of [load_data], run on a budget [b]. *)
Lemma loaded_spent (k : string) (ts : list Transaction.Transaction)
    (b : Budget.Budget) :
  let b' :=
    match ts with
    | [] => b
    | _ => fold_left FinanceTracker.add_spent ts
             (fold_left FinanceTracker.seed_spent ts b)
    end in
  Budget.limits b' = Budget.limits b /\
  Budget.spent b' !! k
  = match expense_amounts k ts with
    | [] => Budget.spent b !! k
    | amounts => Some (fold_left add amounts (default pzero (Budget.spent b !! k)))
    end.
Proof.
  destruct ts as [ | t rest] eqn:Hts; [cbn; auto | ]. rewrite <- Hts. clear Hts.
  cbn zeta.
  destruct (fold_add_spent k ts (fold_left FinanceTracker.seed_spent ts b)) as [Hl Hs].
  destruct (fold_seed_spent k ts b) as [Hl' Hs'].
  rewrite Hl, Hl', Hs, Hs'. split; [reflexivity | ].
  destruct (expense_amounts k ts); reflexivity.
Qed.

(** X16. [load_data] keeps the limits read from the budget file and, in each
    category, adds the amounts of all loaded expenses of that category, in the
    order of the file, to the spent total read from the budget file (to 0.0
    when the file has none); a category without loaded expenses keeps what
    the file says. *)
Theorem load_data_spent (self : FinanceTracker.FinanceTracker) (k : string) :
  let ts := FileManager.load_transactions (FinanceTracker.transactions_file self) in
  let b := FileManager.load_budget (FinanceTracker.budget_file self) in
  FinanceTracker.transactions (FinanceTracker.load_data self) = ts /\
  Budget.limits (FinanceTracker.budget (FinanceTracker.load_data self))
  = Budget.limits b /\
  Budget.spent (FinanceTracker.budget (FinanceTracker.load_data self)) !! k
  = match expense_amounts k ts with
    | [] => Budget.spent b !! k
    | amounts => Some (fold_left add amounts (default pzero (Budget.spent b !! k)))
    end.
Proof.
  intros ts b. unfold FinanceTracker.load_data. fold ts. fold b.
  cbn [FinanceTracker.transactions FinanceTracker.budget].
  split; [reflexivity | ]. exact (loaded_spent k ts b).
Qed.

(** X17. Saving and starting again does not give the budget back: for
    transactions that load again, [load_data] finds in the budget file the
    spent totals of the session and adds every expense of the transactions
    file to them once more. *)
Theorem restart_adds_expenses_again (self : FinanceTracker.FinanceTracker)
    (k : string) :
  Forall (fun t => built t /\ revalidates t) (FinanceTracker.transactions self) ->
  let self' := FinanceTracker.load_data (FinanceTracker.save_data self) in
  let ts := map as_saved (FinanceTracker.transactions self) in
  FinanceTracker.transactions self' = ts /\
  Budget.limits (FinanceTracker.budget self')
  = Budget.limits (FinanceTracker.budget self) /\
  Budget.spent (FinanceTracker.budget self') !! k
  = match expense_amounts k ts with
    | [] => Budget.spent (FinanceTracker.budget self) !! k
    | amounts =>
        Some (fold_left add amounts
                (default pzero (Budget.spent (FinanceTracker.budget self) !! k)))
    end.
Proof.
  intros Hts self' ts. subst self'.
  unfold FinanceTracker.load_data.
  cbn [FinanceTracker.save_data FinanceTracker.transactions_file
       FinanceTracker.budget_file FinanceTracker.transactions FinanceTracker.budget].
  rewrite (saved_transactions_load _ _ (saved_records_load _ Hts)).
  rewrite (proj1 (save_then_load_budget (FinanceTracker.budget self))).
  fold ts. split; [reflexivity | ].
  exact (loaded_spent k ts (FinanceTracker.budget self)).
Qed.

Lemma lunch_built : built lunch.
Proof.
  exists Transaction.Expense_, "2024-11-02", (PyStr "60"), "Food", "lunch".
  vm_compute. reflexivity.
Defined.

(** After the restart the 60 spent on food count as 120. *)
Lemma restart_adds_expenses_again_witness :
  Budget.spent
    (FinanceTracker.budget (FinanceTracker.load_data (FinanceTracker.save_data session)))
    !! "food"
  = Some (add (of_Z 60) (of_Z 60)).
Proof.
  refine (proj2 (proj2 (restart_adds_expenses_again session "food" _))).
  constructor; [ | constructor].
  split; [exact lunch_built | vm_compute; reflexivity].
Defined.

(** ** [add_transaction] *)

Lemma add_transaction_eval (choice date amount category description today : string)
    (self : FinanceTracker.FinanceTracker) :
  FinanceTracker.add_transaction choice date amount category description today self =
    if negb (String.eqb (PyStr.strip choice) "1" || String.eqb (PyStr.strip choice) "2")
    then self
    else
      match Transaction.init
              (if String.eqb (PyStr.strip choice) "1"
               then Transaction.Income_ else Transaction.Expense_)
              (entered_date date today) (PyStr (PyStr.strip amount))
              (PyStr.strip category) (PyStr.strip description) with
      | Err _ => self
      | Ok t =>
          if String.eqb (PyStr.strip choice) "1" then
            FinanceTracker.save_data
              (with_state self (FinanceTracker.transactions self ++ [t])%list
                 (FinanceTracker.budget self))
          else
            match FinanceTracker.record_expense (PyStr.strip category)
                    (Transaction.amount t) (FinanceTracker.budget self) with
            | Budget.Raise _ b' => with_state self (FinanceTracker.transactions self) b'
            | Budget.Return _ b' =>
                FinanceTracker.save_data
                  (with_state self (FinanceTracker.transactions self ++ [t])%list b')
            end
      end.
Proof.
  unfold FinanceTracker.add_transaction, entered_date, Transaction.Income,
    Transaction.Expense.
  destruct (negb _); [reflexivity | ].
  destruct (String.eqb (PyStr.strip choice) "1"); reflexivity.
Qed.

Lemma init_entered (cls : Transaction.class_name) (date amount category description
    today : string) (f : float) :
  real_date_string (entered_date date today) ->
  numeric (PyStr (PyStr.strip amount)) f -> ltb pzero f = true ->
  Transaction.init cls (entered_date date today) (PyStr (PyStr.strip amount))
    (PyStr.strip category) (PyStr.strip description)
  = Ok (entered cls date f category description today).
Proof.
  intros Hd Hf Hpos.
  rewrite init_eval, validate_amount_eval.
  destruct (validate_date_cases (entered_date date today)) as [[_ Hv] | [Hno _]];
    [ | contradiction].
  rewrite Hv, Hf, (positive_not_le_zero f Hpos).
  unfold entered, normalize. rewrite !strip_idempotent. reflexivity.
Qed.




Lemma record_expense_eval (category : string) (amount : float) (b : Budget.Budget) :
  FinanceTracker.record_expense category amount b =
    let b' := spend (normalize category) amount b in
    match Budget.limits b !! normalize category with
    | None => Budget.Return tt b'
    | Some limit =>
        if ltb (sub limit (add (default pzero (Budget.spent b !! normalize category))
                               amount)) pzero
        then Budget.Return tt b'
        else
          match Budget.limits b !! category with
          | Some _ => Budget.Return tt b'
          | None => Budget.Raise (KeyError category) b'
          end
    end.
Proof.
  cbn zeta. unfold FinanceTracker.record_expense.
  unfold Budget.mbind at 1. rewrite add_expense_eval. cbn [py_float].
  fold (spend (normalize category) amount b).
  unfold Budget.mbind at 1.
  destruct (Budget.limits b !! normalize category) as [limit | ] eqn:Hl.
  - rewrite (get_remaining_limited (spend (normalize category) amount b)
               category limit Hl).
    cbn [spend Budget.spent]. rewrite lookup_insert_eq. cbn [default].
    change (of_Z 0) with pzero.
    destruct (ltb _ pzero); [reflexivity | ].
    unfold Budget.mbind, Budget.limits_getitem.
    change (Budget.limits (spend (normalize category) amount b))
      with (Budget.limits b).
    destruct (Budget.limits b !! category) as [limit' | ]; [ | reflexivity].
    destruct (ltb _ _); reflexivity.
  - rewrite (get_remaining_unlimited (spend (normalize category) amount b)
               category Hl).
    reflexivity.
Qed.

(** X19. A valid income (choice 1, a calendar date, an amount above 0) is
    appended to the transactions and both files are written; the budget is
    not touched. *)
Theorem add_transaction_income (choice date amount category description
    today : string) (f : float) (self : FinanceTracker.FinanceTracker) :
  PyStr.strip choice = "1" ->
  real_date_string (entered_date date today) ->
  numeric (PyStr (PyStr.strip amount)) f -> ltb pzero f = true ->
  let t := entered Transaction.Income_ date f category description today in
  let self' := FinanceTracker.add_transaction choice date amount category
                 description today self in
  FinanceTracker.transactions self' = (FinanceTracker.transactions self ++ [t])%list /\
  FinanceTracker.budget self' = FinanceTracker.budget self /\
  FinanceTracker.transactions_file self'
  = FileManager.Holds
      (FileManager.JArray
         (map FileManager.trans_dict (FinanceTracker.transactions self ++ [t]))) /\
  FileManager.load_budget (FinanceTracker.budget_file self') = FinanceTracker.budget self.
Proof.
  intros Hc Hd Hf Hpos t self'. subst self'.
  rewrite add_transaction_eval, Hc. cbn [String.eqb Ascii.eqb Bool.eqb orb negb].
  rewrite (init_entered _ _ _ _ _ _ f Hd Hf Hpos). fold t.
  cbn [FinanceTracker.save_data with_state FinanceTracker.transactions
       FinanceTracker.budget FinanceTracker.transactions_file
       FinanceTracker.budget_file FileManager.save_transactions fst].
  repeat split; try apply save_then_load_budget.
Qed.

Lemma add_transaction_income_witness :
  FinanceTracker.budget
    (FinanceTracker.add_transaction " 1" "" "2000" "Salary" "Monthly paycheck"
       "2024-11-01" session)
  = FinanceTracker.budget session.
Proof.
  refine (proj1 (proj2 (add_transaction_income " 1" "" "2000" "Salary"
                          "Monthly paycheck" "2024-11-01" (of_Z 2000) session
                          eq_refl _ eq_refl eq_refl))).
  exists 2024, 11, 1. split; [ | reflexivity].
  unfold calendar_date. repeat split; vm_compute; discriminate.
Defined.

(** X20. A valid expense (choice 2) whose category, as typed and trimmed, has
    a limit under that very spelling, or has no limit at all, or ends over
    its limit: the rounded amount is added to the spent total of the
    normalised category, the expense is appended to the transactions and
    both files are written with the new state. *)
Theorem add_transaction_expense (choice date amount category description
    today : string) (f : float) (self : FinanceTracker.FinanceTracker) :
  PyStr.strip choice = "2" ->
  real_date_string (entered_date date today) ->
  numeric (PyStr (PyStr.strip amount)) f -> ltb pzero f = true ->
  let b := FinanceTracker.budget self in
  let b' := spend (normalize category) (round2 f) b in
  let t := entered Transaction.Expense_ date f category description today in
  is_Some (Budget.limits b !! PyStr.strip category) \/
  Budget.limits b !! normalize category = None \/
  (exists remaining,
     Budget.get_remaining category b' = Budget.Return (Some remaining) b' /\
     ltb remaining pzero = true) ->
  let self' := FinanceTracker.add_transaction choice date amount category
                 description today self in
  FinanceTracker.transactions self' = (FinanceTracker.transactions self ++ [t])%list /\
  FinanceTracker.budget self' = b' /\
  FinanceTracker.transactions_file self'
  = FileManager.Holds
      (FileManager.JArray
         (map FileManager.trans_dict (FinanceTracker.transactions self ++ [t]))) /\
  FileManager.load_budget (FinanceTracker.budget_file self') = b'.
Proof.
  intros Hc Hd Hf Hpos b b' t Hcase self'. subst self'.
  rewrite add_transaction_eval, Hc. cbn [String.eqb Ascii.eqb Bool.eqb orb negb].
  rewrite (init_entered _ _ _ _ _ _ f Hd Hf Hpos).
  change (Transaction.amount
            (entered Transaction.Expense_ date f category description today))
    with (round2 f).
  assert (Hn : normalize (PyStr.strip category) = normalize category).
  { unfold normalize. rewrite strip_idempotent. reflexivity. }
  assert (Hrec : FinanceTracker.record_expense (PyStr.strip category) (round2 f) b
                 = Budget.Return tt b').
  { rewrite record_expense_eval. cbn zeta. rewrite Hn. fold b'.
    destruct (Budget.limits b !! normalize category) as [limit | ] eqn:Hl;
      [ | reflexivity].
    destruct (ltb _ pzero) eqn:Hover; [reflexivity | ].
    destruct Hcase as [[v Hv] | [Hnone | (remaining & Hrem & Hneg)]].
    - rewrite Hv. reflexivity.
    - discriminate Hnone.
    - rewrite (get_remaining_limited b' category limit Hl) in Hrem.
      injection Hrem as <-. subst b'. cbn [spend Budget.spent] in Hneg.
      rewrite lookup_insert_eq in Hneg.
      change (ltb (sub limit
                     (add (default pzero (Budget.spent b !! normalize category))
                          (round2 f))) pzero = true) in Hneg.
      congruence. }
  fold b. rewrite Hrec.
  cbn [FinanceTracker.save_data with_state FinanceTracker.transactions
       FinanceTracker.budget FinanceTracker.transactions_file
       FinanceTracker.budget_file FileManager.save_transactions fst].
  repeat split; try apply save_then_load_budget.
Qed.

(** X21. A valid expense whose category, as typed, is not a key of [limits]
    while its normal form has a limit that is not exceeded (a category typed
    with a capital letter): the amount is added to the spent total, and then
    the lookup [limits[category]] raises; the expense is not appended to the
    transactions and no file is written. *)
Theorem add_transaction_expense_lost (choice date amount category description
    today : string) (f limit : float) (self : FinanceTracker.FinanceTracker) :
  PyStr.strip choice = "2" ->
  real_date_string (entered_date date today) ->
  numeric (PyStr (PyStr.strip amount)) f -> ltb pzero f = true ->
  let b := FinanceTracker.budget self in
  let b' := spend (normalize category) (round2 f) b in
  Budget.limits b !! PyStr.strip category = None ->
  Budget.limits b !! normalize category = Some limit ->
  ltb (sub limit (add (default pzero (Budget.spent b !! normalize category))
                      (round2 f))) pzero = false ->
  FinanceTracker.add_transaction choice date amount category description today self
  = with_state self (FinanceTracker.transactions self) b'.
Proof.
  intros Hc Hd Hf Hpos b b' Hraw Hl Hover.
  rewrite add_transaction_eval, Hc. cbn [String.eqb Ascii.eqb Bool.eqb orb negb].
  rewrite (init_entered _ _ _ _ _ _ f Hd Hf Hpos).
  cbn [entered Transaction.amount].
  assert (Hn : normalize (PyStr.strip category) = normalize category).
  { unfold normalize. rewrite strip_idempotent. reflexivity. }
  rewrite record_expense_eval. cbn zeta. rewrite Hn. fold b.
  rewrite Hl, Hover, Hraw. reflexivity.
Qed.

Lemma november_3 : real_date_string (entered_date "2024-11-03 " "2024-11-01").
Proof.
  exists 2024, 11, 3. split; [ | reflexivity].
  unfold calendar_date. repeat split; vm_compute; discriminate.
Defined.

(** 12.50 spent on "food", typed as the limit is spelt. *)
Lemma add_transaction_expense_witness :
  FinanceTracker.budget
    (FinanceTracker.add_transaction "2" "2024-11-03 " "12.50" "food" "coffee"
       "2024-11-01" session)
  = spend "food" (round2 (of_decimal false 1250 (-2))) food_budget.
Proof.
  refine (proj1 (proj2 (add_transaction_expense "2" "2024-11-03 " "12.50" "food"
                          "coffee" "2024-11-01" (of_decimal false 1250 (-2)) session
                          eq_refl november_3 eq_refl eq_refl _))).
  left. exists (of_Z 100). reflexivity.
Defined.

(** The same expense typed as "Food": it is counted and not recorded. *)
Lemma add_transaction_expense_lost_witness :
  FinanceTracker.add_transaction "2" "2024-11-03 " "12.50" "Food" "coffee"
    "2024-11-01" session
  = with_state session [lunch]
      (spend "food" (round2 (of_decimal false 1250 (-2))) food_budget).
Proof.
  exact (add_transaction_expense_lost "2" "2024-11-03 " "12.50" "Food" "coffee"
           "2024-11-01" (of_decimal false 1250 (-2)) (of_Z 100) session
           eq_refl november_3 eq_refl eq_refl eq_refl eq_refl eq_refl).
Defined.

(** ** [set_budget] *)

Lemma set_limit_string (category limit : string) (b : Budget.Budget) :
  (exists b', Budget.set_limit category (PyStr limit) b = Budget.Return tt b') \/
  Budget.set_limit category (PyStr limit) b = Budget.Raise InvalidLimit b.
Proof.
  rewrite set_limit_eval. cbn [py_float].
  destruct (parse_float limit) as [f | ]; [ | auto].
  destruct (leb f pzero); eauto.
Qed.

(** X22. [set_budget] never lets an exception out, because a limit read as
    text never overflows.  A limit that [set_limit] refuses leaves the
    tracker and the files as they were; an accepted one is stored and both
    files are written, so that the budget file then holds the new budget. *)
Theorem set_budget_handles (category limit : string)
    (self : FinanceTracker.FinanceTracker) :
  exists self',
    FinanceTracker.set_budget category limit self = Ok self' /\
    FinanceTracker.transactions self' = FinanceTracker.transactions self /\
    (Budget.set_limit (PyStr.strip category) (PyStr (PyStr.strip limit))
       (FinanceTracker.budget self)
     = Budget.Raise InvalidLimit (FinanceTracker.budget self) ->
     self' = self) /\
    (forall b',
       Budget.set_limit (PyStr.strip category) (PyStr (PyStr.strip limit))
         (FinanceTracker.budget self) = Budget.Return tt b' ->
       FinanceTracker.budget self' = b' /\
       FileManager.load_budget (FinanceTracker.budget_file self') = b' /\
       FinanceTracker.transactions_file self'
       = FileManager.Holds
           (FileManager.JArray
              (map FileManager.trans_dict (FinanceTracker.transactions self)))).
Proof.
  unfold FinanceTracker.set_budget.
  destruct (set_limit_string (PyStr.strip category) (PyStr.strip limit)
              (FinanceTracker.budget self)) as [[b' Hset] | Hset]; rewrite Hset.
  - eexists. split; [reflexivity | ]. split; [reflexivity | ].
    split; [discriminate | ].
    intros b'' [= <-]. cbn. repeat split. apply save_then_load_budget.
  - exists self. destruct self as [ts b tf bf]. cbn.
    split; [reflexivity | ]. split; [reflexivity | ].
    split; [reflexivity | discriminate].
Qed.

Lemma set_budget_handles_witness :
  exists self',
    FinanceTracker.set_budget "rent" "-5" session = Ok self' /\ self' = session.
Proof.
  destruct (set_budget_handles "rent" "-5" session) as (self' & Hset & _ & Hbad & _).
  exists self'. split; [exact Hset | ].
  apply Hbad. vm_compute. reflexivity.
Defined.

(** ** Sorting by date *)















